(** * Frequency-response tester for LADSPA plugins: model and properties

    A shallow embedding of [test-plugin.py] (class [PluginTester]).

    Modelling conventions.
    - Python's [float] (and the few [int]s that are mixed with floats) are
      modelled by the real numbers [R]: arithmetic is exact; rounding,
      overflow, infinities and NaN are outside the model.  Division by
      zero raises [ZeroDivisionError], as it does in Python for both
      [int] and [float] operands.
    - Text is a [string]; a character is a code point below 256.
    - External programs ([sox], [riaa_process]), temporary files and the
      Python built-ins [str(float)] and [float(str)] are the fields of the
      class [Externals]; every definition and theorem is generic in them.
    - Exceptions are values of [exn]; a computation that touches the
      outside world is a function [World -> result A * World].
    - Console output ([print]) is not modelled, except for
      [print_plugin_info], which is given as the list of the lines it
      prints. *)

From Stdlib Require Import Reals Lra Lia ZArith List Bool Ascii String.
From Stdlib Require Import DecimalString.
Import ListNotations.

Open Scope R_scope.

(* ================================================================= *)
(** * Exceptions and results *)

Inductive exn : Type :=
| ZeroDivisionError
| ValueError
| CalledProcessError
| TypeError
| IndexError
| AttributeError
| SystemExit (code : Z).

Inductive result (A : Type) : Type :=
| Ok (a : A)
| Raise (e : exn).

Arguments Ok {A} a.
Arguments Raise {A} e.

Definition rbind {A B : Type} (r : result A) (k : A -> result B) : result B :=
  match r with
  | Ok a => k a
  | Raise e => Raise e
  end.

Declare Scope result_scope.
Delimit Scope result_scope with result.
Notation "x <~ c ;; k" := (rbind c (fun x => k))
  (at level 61, c at next level, right associativity) : result_scope.

(** The process exit status that goes with the way the interpreter ends:
    0 on normal completion, the code of a [SystemExit], 1 for any other
    uncaught exception. *)
Definition exit_status {A : Type} (r : result A) : Z :=
  match r with
  | Ok _ => 0%Z
  | Raise (SystemExit c) => c
  | Raise _ => 1%Z
  end.

(* ================================================================= *)
(** * Numbers *)

Definition Rleb (x y : R) : bool := if Rle_dec x y then true else false.
Definition Rltb (x y : R) : bool := if Rlt_dec x y then true else false.
Definition Reqb (x y : R) : bool := if Req_EM_T x y then true else false.

(** [a / b] on Python numbers. *)
Definition py_div (a b : R) : result R :=
  if Reqb b 0 then Raise ZeroDivisionError else Ok (a / b).

(** [max(a, b)] and [min(a, b)]: the first argument is kept unless the
    second is strictly greater (resp. smaller). *)
Definition py_max (a b : R) : R := if Rltb a b then b else a.
Definition py_min (a b : R) : R := if Rltb b a then b else a.

(** [math.log10]. *)
Definition log10 (x : R) : R := ln x / ln 10.

(** [2 ** x] for a float exponent. *)
Definition pow2 (x : R) : R := Rpower 2 x.

(** The decimal literals of the source. *)
Definition db_offset : R := 30103 / 10000.   (* 3.0103 *)
Definition db_floor : R := -200.             (* -200   *)

(** [PluginTester.rms_to_db]. *)
Definition rms_to_db (rms : R) : R :=
  if Rleb rms 0 then db_floor
  else 20 * log10 rms + db_offset.

(* ================================================================= *)
(** * Text *)

Open Scope string_scope.

Definition tab : ascii := ascii_of_nat 9.
Definition newline : ascii := ascii_of_nat 10.

(** [sub in s] for strings: [sub] occurs in [s] at some position. *)
Fixpoint contains (sub s : string) : bool :=
  if prefix sub s then true
  else match s with
       | EmptyString => false
       | String _ s' => contains sub s'
       end.

(** [s.split(sep)] for a one-character separator. *)
Fixpoint split_on (sep : ascii) (s : string) : list string :=
  match s with
  | EmptyString => [EmptyString]
  | String c s' =>
      if Ascii.eqb c sep then EmptyString :: split_on sep s'
      else match split_on sep s' with
           | [] => [String c EmptyString]
           | field :: fields => String c field :: fields
           end
  end.

Fixpoint drop (n : nat) (s : string) : string :=
  match n, s with
  | O, _ => s
  | S n', EmptyString => EmptyString
  | S n', String _ s' => drop n' s'
  end.

(** [s.replace(old, new)] for a non-empty [old]: occurrences are replaced
    from the left and do not overlap.  [skip] counts the characters of an
    occurrence that has just been replaced and still lie ahead. *)
Fixpoint replace_from (old new : string) (skip : nat) (s : string) : string :=
  match s with
  | EmptyString => EmptyString
  | String c s' =>
      match skip with
      | S k => replace_from old new k s'
      | O =>
          if prefix old s
          then new ++ replace_from old new (String.length old - 1) s'
          else String c (replace_from old new 0 s')
      end
  end.

Definition replace (old new s : string) : string := replace_from old new 0 s.

(** [str(n)] for a non-negative integer. *)
Definition str_nat (n : nat) : string := NilZero.string_of_uint (Nat.to_uint n).

(** Whitespace as the regular-expression class [\s] sees it on [str]. *)
Definition is_space (c : ascii) : bool :=
  let n := nat_of_ascii c in
  ((9 <=? n) && (n <=? 13) || (28 <=? n) && (n <=? 32)
   || (n =? 133) || (n =? 160))%nat.

Fixpoint skip_spaces (s : string) : string :=
  match s with
  | String c s' => if is_space c then skip_spaces s' else s
  | EmptyString => EmptyString
  end.

Fixpoint take_token (s : string) : string :=
  match s with
  | String c s' => if is_space c then EmptyString else String c (take_token s')
  | EmptyString => EmptyString
  end.

(** [amplitude:\s+(\S+)] anchored at the start of [s]: group 1 on a match.
    Both repetitions are greedy, so the blanks matched are the whole run of
    blanks and the group is the whole run of non-blanks behind it. *)
Definition amplitude_here (s : string) : option string :=
  if prefix "amplitude:" s then
    let rest := drop 10 s in
    match rest with
    | String c _ =>
        if is_space c then
          match take_token (skip_spaces rest) with
          | EmptyString => None
          | tok => Some tok
          end
        else None
    | EmptyString => None
    end
  else None.

(** [re.search(r'amplitude:\s+(\S+)', s)]: the leftmost match. *)
Fixpoint amplitude_search (s : string) : option string :=
  match amplitude_here s with
  | Some tok => Some tok
  | None =>
      match s with
      | EmptyString => None
      | String _ s' => amplitude_search s'
      end
  end.

(** [s.count(sub)] for a non-empty [sub]: occurrences counted from the
    left, without overlap. *)
Fixpoint count_from (sub : string) (skip : nat) (s : string) : nat :=
  match s with
  | EmptyString => 0
  | String _ s' =>
      match skip with
      | S k => count_from sub k s'
      | O =>
          if prefix sub s
          then S (count_from sub (String.length sub - 1) s')
          else count_from sub 0 s'
      end
  end.

Definition count (sub s : string) : nat := count_from sub 0 s.

(** [s.strip()] *)
Fixpoint rstrip (s : string) : string :=
  match s with
  | EmptyString => EmptyString
  | String c s' =>
      match rstrip s' with
      | EmptyString => if is_space c then EmptyString else String c EmptyString
      | kept => String c kept
      end
  end.

Definition strip (s : string) : string := rstrip (skip_spaces s).

Definition quote : ascii := ascii_of_nat 34.

(** The characters of [s] up to its first double quote, and whether
    there is one. *)
Fixpoint until_quote (s : string) : string * bool :=
  match s with
  | EmptyString => (EmptyString, false)
  | String c s' =>
      if Ascii.eqb c quote then (EmptyString, true)
      else let (word, closed) := until_quote s' in (String c word, closed)
  end.

(** [re.search] for the pattern of [analyze_plugin]: a double quote, a
    group of one or more characters other than a double quote, a double
    quote.  Group 1 of the leftmost match. *)
Fixpoint quoted_search (s : string) : option string :=
  match s with
  | EmptyString => None
  | String c s' =>
      if Ascii.eqb c quote then
        match until_quote s' with
        | (String d word, true) => Some (String d word)
        | _ => quoted_search s'
        end
      else quoted_search s'
  end.

(** [str(n)] for a non-negative integer given in [Z]. *)
Definition str_Z (n : Z) : string := NilZero.string_of_uint (N.to_uint (Z.to_N n)).

(** The decimal digit [k], for [0 <= k < 10]. *)
Definition digit_char (k : Z) : ascii := ascii_of_nat (48 + Z.to_nat k).

(** The last [width] decimal digits of [n]. *)
Fixpoint decimals (width : nat) (n : Z) : string :=
  match width with
  | O => ""
  | S width' =>
      decimals width' (n / 10) ++ String (digit_char (n mod 10)) ""
  end.

(** Round to the nearest integer, ties to the even one. *)
Definition round_half_even (x : R) : Z :=
  let n := Int_part x in
  let r := frac_part x in
  if Rltb r (1 / 2) then n
  else if Rltb (1 / 2) r then (n + 1)%Z
  else if Z.even n then n else (n + 1)%Z.

(** [f"{x:.<digits>f}"]: the sign, the integer part and [digits]
    decimals of the value rounded to that many decimals. *)
Definition format_fixed (digits : nat) (x : R) : string :=
  let scaled := round_half_even (Rabs x * 10 ^ digits) in
  let unit := (10 ^ Z.of_nat digits)%Z in
  (if Rltb x 0 then "-" else "")
  ++ str_Z (scaled / unit)
  ++ match digits with
     | O => ""
     | _ => "." ++ decimals digits (scaled mod unit)
     end.

Close Scope string_scope.

(* ================================================================= *)
(** * The outside world *)

Record CompletedProcess : Type := {
  returncode : Z;
  stdout : string;
  stderr : string
}.

(** What [plt.savefig] is given: the curves, the axis limits set with
    [plt.ylim] (if any) and the title. *)
Record Figure : Type := {
  curves : list (list R * list R);
  ylim : option (R * R);
  title : option string
}.

Class Externals : Type := {
  World : Type;
  (** [subprocess.run(cmd, capture_output=True, text=True)] *)
  subprocess_run : list string -> World -> CompletedProcess * World;
  (** [tempfile.NamedTemporaryFile(suffix=..., delete=False)]: the name *)
  NamedTemporaryFile : string -> World -> string * World;
  (** [Path(f).unlink()], any error ignored *)
  unlink : string -> World -> World;
  (** [Path(p).exists()] *)
  path_exists : string -> World -> bool;
  (** [str(x)] for a float *)
  str_float : R -> string;
  (** [float(s)]; [None] stands for [ValueError] *)
  float_of_str : string -> option R;
  (** whether [import matplotlib] succeeded *)
  HAS_MATPLOTLIB : bool;
  (** the bytes [plt.savefig] writes for a figure *)
  render : Figure -> string
}.

Section Monad.
Context {E : Externals}.

Definition M (A : Type) : Type := World -> result A * World.

Definition ret {A : Type} (a : A) : M A := fun w => (Ok a, w).

Definition raise {A : Type} (e : exn) : M A := fun w => (Raise e, w).

Definition bind {A B : Type} (m : M A) (k : A -> M B) : M B :=
  fun w =>
    match m w with
    | (Ok a, w1) => k a w1
    | (Raise e, w1) => (Raise e, w1)
    end.

Definition lift {A : Type} (r : result A) : M A := fun w => (r, w).

(** A call into the outside world that returns a value. *)
Definition call {A : Type} (f : World -> A * World) : M A :=
  fun w => let (a, w1) := f w in (Ok a, w1).

(** [try: body  except <caught>: handler] *)
Definition try_except {A : Type} (body : M A) (caught : exn -> bool)
           (handler : exn -> M A) : M A :=
  fun w =>
    match body w with
    | (Ok a, w1) => (Ok a, w1)
    | (Raise e, w1) => if caught e then handler e w1 else (Raise e, w1)
    end.

(** [try: body  finally: cleanup], for a cleanup that cannot fail *)
Definition try_finally {A : Type} (body : M A) (cleanup : World -> World)
  : M A :=
  fun w => let (r, w1) := body w in (r, cleanup w1).
End Monad.

Declare Scope monad_scope.
Delimit Scope monad_scope with monad.
Notation "x <- c ;; k" := (bind c (fun x => k))
  (at level 61, c at next level, right associativity) : monad_scope.

(* ================================================================= *)
(** * The tester *)

(** The attributes of a [PluginTester].  [output_file] does not exist
    before [parse_args] has run; [None] stands for that. *)
Record PluginTester : Type := {
  f_min : R;
  f_max : R;
  steps_per_oct : Z;
  duration : R;
  trim_start : R;
  trim_len : R;
  plugin_path : option string;
  plugin_label : option string;
  plugin_name : option string;
  num_inputs : nat;
  num_outputs : nat;
  parameters : list string;
  param_names : list string;
  no_plot : bool;
  y_min : option R;
  y_max : option R;
  output_file : option string
}.

(** [PluginTester.__init__] *)
Definition init : PluginTester := {|
  f_min := 5;
  f_max := 50000;
  steps_per_oct := 12;
  duration := 1;
  trim_start := 2 / 10;
  trim_len := 6 / 10;
  plugin_path := None;
  plugin_label := None;
  plugin_name := None;
  num_inputs := 0;
  num_outputs := 0;
  parameters := [];
  param_names := [];
  no_plot := false;
  y_min := None;
  y_max := None;
  output_file := None
|}.

(** What [argparse] hands back: one value per option, already converted
    ([type=float], [type=int]) and with the defaults filled in. *)
Record Namespace : Type := {
  arg_plugin : string;
  arg_params : list string;
  arg_output : option string;
  arg_f_min : R;
  arg_f_max : R;
  arg_steps : Z;
  arg_duration : R;
  arg_y_min : option R;
  arg_y_max : option R;
  arg_no_plot : bool
}.

(** A measurement record: the frequency and one dB value per channel. *)
Definition record : Type := (R * list R)%type.

(** The signal length chosen at the head of [measure_frequency]. *)
Definition adaptive_duration (frequency : R) : result R :=
  (let min_cycles := 100 in
   cycle_duration <~ py_div 1 frequency ;;
   let adaptive_duration := py_max (min_cycles * cycle_duration) 1 in
   let adaptive_duration := py_min adaptive_duration 10 in
   Ok adaptive_duration)%result.

(** The window computed at the head of [measure_frequency]:
    (adaptive_duration, trim_start, trim_len). *)
Definition window (t : PluginTester) (frequency : R) : result (R * R * R) :=
  (adaptive_duration <~ adaptive_duration frequency ;;
   trim_start <~ py_div ((2 / 10) * adaptive_duration) (duration t) ;;
   trim_len <~ py_div ((6 / 10) * adaptive_duration) (duration t) ;;
   Ok (adaptive_duration, trim_start, trim_len))%result.

Section Tester.
Context {E : Externals}.
Open Scope monad_scope.

(** An attribute used as a command-line word: [None] there makes
    [subprocess.run] raise [TypeError]. *)
Definition argv_word (a : option string) : M string :=
  match a with
  | Some s => ret s
  | None => raise TypeError
  end.

(** The scan of one [sox ... stat] report for the RMS amplitude:
    [Ok None] when no line yields a match, [Raise ValueError] when the
    matched word is not a float literal. *)
Fixpoint parse_rms (lines : list string) : result (option R) :=
  match lines with
  | [] => Ok None
  | line :: rest =>
      if contains "RMS" line && contains "amplitude:" line then
        match amplitude_search line with
        | Some word =>
            match float_of_str word with
            | Some rms => Ok (Some rms)
            | None => Raise ValueError
            end
        | None => parse_rms rest
        end
      else parse_rms rest
  end.

(** The loop [for ch in range(self.num_outputs)] of
    [measure_frequency], run over the channel numbers still to do. *)
Fixpoint measure_channels (tmp_file : string) (channels : list nat)
         (rms_values : list R) : M (list R) :=
  match channels with
  | [] => ret rms_values
  | ch :: rest =>
      let stat_cmd :=
        ["sox"; tmp_file; "-n"; "remix"; str_nat (ch + 1); "stat"]%string in
      stat_result <- call (subprocess_run stat_cmd) ;;
      let output := (stdout stat_result ++ stderr stat_result)%string in
      rms <- lift (parse_rms (split_on newline output)) ;;
      measure_channels tmp_file rest
        (rms_values ++ [match rms with Some r => r | None => 0 end])
  end.

(** The first two steps of the [try] block of [measure_frequency]: the
    tone is generated and sent through the plugin.  [Some tmp_file] is
    the file to analyse, [None] stands for the early [return None]. *)
Definition process_signal (t : PluginTester) (frequency : R)
           (adaptive_duration trim_start trim_len : R)
           (tmp_input tmp_output : string) : M (option string) :=
  let sox_cmd :=
    ["sox"; "-n"; tmp_input;
     "synth"; str_float adaptive_duration; "sine"; str_float frequency;
     "channels"; str_nat (num_inputs t);
     "trim"; str_float trim_start; str_float trim_len]%string in
  result <- call (subprocess_run sox_cmd) ;;
  if negb (returncode result =? 0)%Z then ret None
  else
    if match plugin_label t with
       | Some l => String.eqb l "riaa"
       | None => false
       end
    then
      let riaa_cmd :=
        (["./riaa_process"; tmp_input; tmp_output]%string
         ++ parameters t)%list in
      result <- call (subprocess_run riaa_cmd) ;;
      if negb (returncode result =? 0)%Z then ret None
      else ret (Some tmp_output)
    else
      path <- argv_word (plugin_path t) ;;
      label <- argv_word (plugin_label t) ;;
      let cmd :=
        (["sox"; tmp_input; tmp_output; "ladspa"; path; label]%string
         ++ parameters t)%list in
      result <- call (subprocess_run cmd) ;;
      if negb (returncode result =? 0)%Z then ret None
      else ret (Some tmp_output).

(** The body of the [try] block of [measure_frequency]. *)
Definition measure_body (t : PluginTester) (frequency : R)
           (adaptive_duration trim_start trim_len : R)
           (tmp_input tmp_output : string) : M (option (list R)) :=
  tmp_file <- process_signal t frequency adaptive_duration trim_start
                             trim_len tmp_input tmp_output ;;
  match tmp_file with
  | None => ret None
  | Some tmp_file =>
      rms_values <- measure_channels tmp_file (seq 0 (num_outputs t)) [] ;;
      ret (Some rms_values)
  end.

(** The handler of [measure_frequency] catches these. *)
Definition caught (e : exn) : bool :=
  match e with
  | CalledProcessError | ValueError => true
  | _ => false
  end.

(** [PluginTester.measure_frequency]: the RMS amplitude of every output
    channel, or [None] when the measurement fails. *)
Definition measure_frequency (t : PluginTester) (frequency : R)
  : M (option (list R)) :=
  win <- lift (window t frequency) ;;
  let '(adaptive_duration, trim_start, trim_len) := win in
  tmp_input <- call (NamedTemporaryFile ".wav") ;;
  tmp_output <- call (NamedTemporaryFile ".wav") ;;
  try_finally
    (try_except
       (measure_body t frequency adaptive_duration trim_start trim_len
                     tmp_input tmp_output)
       caught
       (fun _ => ret None))
    (fun w => unlink tmp_output (unlink tmp_input w)).

(** [2 ** (1 / self.steps_per_oct)] *)
Definition step_ratio (t : PluginTester) : result R :=
  (x <~ py_div 1 (IZR (steps_per_oct t)) ;; Ok (pow2 x))%result.

(** The [while] loop of [run_sweep].  [fuel] bounds the number of
    iterations; the answer is [None] when it does not suffice. *)
Fixpoint sweep_loop (t : PluginTester) (fuel : nat) (frequency : R)
         (results : list record) (w : World)
  : option (result (list record) * World) :=
  if Rleb frequency (f_max t) then
    match fuel with
    | O => None
    | S fuel' =>
        match measure_frequency t frequency w with
        | (Raise e, w1) => Some (Raise e, w1)
        | (Ok rms_values, w1) =>
            let db_values :=
              match rms_values with
              | Some rms_values => map rms_to_db rms_values
              | None => repeat db_floor (num_outputs t)
              end in
            let results := results ++ [(frequency, db_values)] in
            match step_ratio t with
            | Raise e => Some (Raise e, w1)
            | Ok ratio => sweep_loop t fuel' (frequency * ratio) results w1
            end
        end
    end
  else Some (Ok results, w).

(** [PluginTester.run_sweep] *)
Definition run_sweep (t : PluginTester) (fuel : nat) (w : World)
  : option (result (list record) * World) :=
  sweep_loop t fuel (f_min t) [] w.

(** [PluginTester.parse_args], from the point where [argparse] has
    returned its namespace. *)
Definition parse_args (t : PluginTester) (args : Namespace)
  : M PluginTester :=
  let plugin_name' := arg_plugin args in
  let path := ("/usr/local/lib/ladspa/" ++ plugin_name' ++ ".so")%string in
  exists_ <- (fun w => (Ok (path_exists path w), w)) ;;
  if negb exists_ then raise (SystemExit 2)
  else
    let params_list :=
      flat_map (fun p => if contains "," p then split_on "," p else [p])
               (arg_params args) in
    ret {| f_min := arg_f_min args;
           f_max := arg_f_max args;
           steps_per_oct := arg_steps args;
           duration := arg_duration args;
           trim_start := trim_start t;
           trim_len := trim_len t;
           plugin_path := Some path;
           plugin_label := plugin_label t;
           plugin_name := plugin_name t;
           num_inputs := num_inputs t;
           num_outputs := num_outputs t;
           parameters := params_list;
           param_names := param_names t;
           no_plot := arg_no_plot args;
           y_min := arg_y_min args;
           y_max := arg_y_max args;
           output_file :=
             Some match arg_output args with
                  | Some (String c s) => String c s
                  | _ => (plugin_name' ++ "_response.txt")%string
                  end |}.

(** The value of a [Plugin Name:] or [Plugin Label:] line. *)
Definition field_value (line : string) : string :=
  if contains (String quote "") line
  then nth 1 (split_on quote line) ""%string
  else strip (nth 1 (split_on ":" line) ""%string).

(** [PluginTester.analyze_plugin] *)
Definition analyze_plugin (t : PluginTester) : M PluginTester :=
  path <- argv_word (plugin_path t) ;;
  result <- call (subprocess_run ["analyseplugin"; path]%string) ;;
  if negb (returncode result =? 0)%Z then raise (SystemExit 1)
  else
    let output := stdout result in
    let lines := split_on newline output in
    let name_label :=
      fold_left
        (fun nl line =>
           if contains "Plugin Name:" line
           then (Some (field_value line), snd nl)
           else if contains "Plugin Label:" line
                then (fst nl, Some (field_value line))
                else nl)
        lines (plugin_name t, plugin_label t) in
    let inputs := count "input, audio" output in
    let outputs := count "output, audio" output in
    let names :=
      fold_left
        (fun names line =>
           if contains "input, control" line
           then match quoted_search line with
                | Some name => names ++ [name]
                | None => names
                end
           else names)
        lines [] in
    ret {| f_min := f_min t;
           f_max := f_max t;
           steps_per_oct := steps_per_oct t;
           duration := duration t;
           trim_start := trim_start t;
           trim_len := trim_len t;
           plugin_path := plugin_path t;
           plugin_label := snd name_label;
           plugin_name := fst name_label;
           num_inputs := if (inputs =? 0)%nat then 1%nat else inputs;
           num_outputs := if (outputs =? 0)%nat then 1%nat else outputs;
           parameters := parameters t;
           param_names := names;
           no_plot := no_plot t;
           y_min := y_min t;
           y_max := y_max t;
           output_file := output_file t |}.
End Tester.

(** [str(x)] for an attribute that may be [None]. *)
Definition str_option (a : option string) : string :=
  match a with
  | Some s => s
  | None => "None"
  end.

(** [PluginTester.print_plugin_info]: the lines it prints, in order. *)
Definition print_plugin_info (t : PluginTester) : list string :=
  (["=== Plugin Analysis ===";
    "Plugin Name: " ++ String quote (str_option (plugin_name t)
                                     ++ String quote "");
    "Plugin Label: " ++ String quote (str_option (plugin_label t)
                                      ++ String quote "");
    "Audio Channels: " ++ str_nat (num_inputs t) ++ " input(s), "
    ++ str_nat (num_outputs t) ++ " output(s)";
    ""]%string
   ++ match parameters t with
      | [] => []
      | _ =>
          ["=== Testing Parameters ==="%string]
          ++ flat_map
               (fun iv : nat * string =>
                  let (i, param_value) := iv in
                  if (i <? List.length (param_names t))%nat
                  then [("  " ++ nth i (param_names t) "" ++ " = "
                         ++ param_value)%string]
                  else [])
               (combine (seq 0 (List.length (parameters t))) (parameters t))
          ++ [""%string]
      end)%list.

(* ================================================================= *)
(** * Output files *)

(** The files the tester writes, by path. *)
Definition FileStore : Type := string -> option string.

Definition write_file (path content : string) (fs : FileStore) : FileStore :=
  fun p => if String.eqb p path then Some content else fs p.

Section Output.
Context {E : Externals}.
Open Scope string_scope.

(** The header row built by [write_results], without its newline. *)
Definition header_line (t : PluginTester) : string :=
  fold_left (fun header ch => header ++ String tab ("Channel_" ++ str_nat ch))
            (seq 0 (num_outputs t)) "Frequency".

(** The row built by [write_results] for one record, without its
    newline. *)
Definition data_line (r : record) : string :=
  let '(freq, db_values) := r in
  fold_left (fun line db => line ++ String tab (format_fixed 2 db))
            db_values (format_fixed 3 freq).

(** Everything [write_results] writes to the file. *)
Definition table_text (t : PluginTester) (results : list record) : string :=
  fold_left (fun text r => text ++ data_line r ++ String newline "")
            results (header_line t ++ String newline "").

(** [PluginTester.write_results] *)
Definition write_results (t : PluginTester) (results : list record)
           (fs : FileStore) : result FileStore :=
  match output_file t with
  | None => Raise AttributeError
  | Some path => Ok (write_file path (table_text t results) fs)
  end.

(** [[r[1][ch] for r in results]] *)
Fixpoint column (ch : nat) (results : list record) : result (list R) :=
  match results with
  | [] => Ok []
  | r :: rest =>
      match nth_error (snd r) ch with
      | None => Raise IndexError
      | Some db => (dbs <~ column ch rest ;; Ok (db :: dbs))%result
      end
  end.

(** [[r[1][ch] for r in results if r[1][ch] > -200]] *)
Definition measured_column (ch : nat) (results : list record)
  : result (list R) :=
  (dbs <~ column ch results ;; Ok (filter (fun db => Rltb db_floor db) dbs))%result.

(** [all_db_values] of [plot_results] *)
Fixpoint all_db_values (channels : list nat) (results : list record)
  : result (list R) :=
  match channels with
  | [] => Ok []
  | ch :: rest =>
      (dbs <~ measured_column ch results ;;
       more <~ all_db_values rest results ;;
       Ok (dbs ++ more)%list)%result
  end.

(** [min(l)] and [max(l)] of a non-empty list *)
Definition list_min (x : R) (l : list R) : R := fold_left py_min l x.
Definition list_max (x : R) (l : list R) : R := fold_left py_max l x.

(** The limits [plot_results] passes to [plt.ylim], if it calls it. *)
Definition y_limits (t : PluginTester) (results : list record)
  : result (option (R * R)) :=
  match y_min t, y_max t with
  | Some lo, Some hi => Ok (Some (lo, hi))
  | _, _ =>
      (values <~ all_db_values (seq 0 (num_outputs t)) results ;;
       match values with
       | [] => Ok None
       | v :: vs =>
           let data_min := list_min v vs in
           let data_max := list_max v vs in
           let range_db := (data_max - data_min)%R in
           let lo := if Rltb 0 range_db
                     then (data_min - (1 / 10) * range_db)%R
                     else (data_min - 1)%R in
           let hi := if Rltb 0 range_db
                     then (data_max + (1 / 10) * range_db)%R
                     else (data_max + 1)%R in
           let lo := match y_min t with Some u => u | None => lo end in
           let hi := match y_max t with Some u => u | None => hi end in
           Ok (Some (lo, hi))
       end)%result
  end.

(** The curves [plot_results] draws, one per output channel. *)
Fixpoint plot_curves (channels : list nat) (results : list record)
  : result (list (list R * list R)) :=
  match channels with
  | [] => Ok []
  | ch :: rest =>
      (dbs <~ column ch results ;;
       more <~ plot_curves rest results ;;
       Ok ((map fst results, dbs) :: more))%result
  end.

(** [self.output_file.replace('.txt', '.png')] *)
Definition plot_file (path : string) : string := replace ".txt" ".png" path.

(** [PluginTester.plot_results] *)
Definition plot_results (t : PluginTester) (results : list record)
           (fs : FileStore) : result FileStore :=
  if negb HAS_MATPLOTLIB then Ok fs
  else
    (drawn <~ plot_curves (seq 0 (num_outputs t)) results ;;
     limits <~ y_limits t results ;;
     match output_file t with
     | None => Raise AttributeError
     | Some path =>
         let fig := {| curves := drawn; ylim := limits;
                       title := plugin_name t |} in
         Ok (write_file (plot_file path) (render fig) fs)
     end)%result.

End Output.

(* ================================================================= *)
(** * The whole program *)

Section Program.
Context {E : Externals}.

(** How a run of the program ends: the exceptional or normal end, the
    outside world and the output files. *)
Definition outcome : Type := (result unit * World * FileStore)%type.

(** [PluginTester().run(sys.argv[1:])], from the namespace on;
    [print_plugin_info] only prints and is left out.  [None] when [fuel]
    iterations of the sweep loop do not suffice. *)
Definition run (args : Namespace) (fuel : nat) (w : World) (fs : FileStore)
  : option outcome :=
  match bind (parse_args init args) analyze_plugin w with
  | (Raise e, w1) => Some (Raise e, w1, fs)
  | (Ok t, w1) =>
      match run_sweep t fuel w1 with
      | None => None
      | Some (Raise e, w2) => Some (Raise e, w2, fs)
      | Some (Ok results, w2) =>
          match write_results t results fs with
          | Raise e => Some (Raise e, w2, fs)
          | Ok fs1 =>
              match plot_results t results fs1 with
              | Raise e => Some (Raise e, w2, fs1)
              | Ok fs2 => Some (Ok tt, w2, fs2)
              end
          end
      end
  end.
End Program.

(* ================================================================= *)
(** * The vocabulary of the properties *)

(** Every character of [s] satisfies [p]. *)
Fixpoint all_chars (p : ascii -> bool) (s : string) : bool :=
  match s with
  | EmptyString => true
  | String c s' => p c && all_chars p s'
  end.

(** [c] does not occur in [s]. *)
Definition lacks (c : ascii) (s : string) : bool :=
  all_chars (fun d => negb (Ascii.eqb d c)) s.

Definition is_digit (c : ascii) : bool :=
  let n := nat_of_ascii c in ((48 <=? n) && (n <=? 57))%nat.

(** The characters of a formatted number: digits, the sign, the point. *)
Definition numeric_char (c : ascii) : bool :=
  is_digit c || Ascii.eqb c "-" || Ascii.eqb c ".".

(** The lines of a text whose every line ends with a newline. *)
Definition lines_of (text : string) : list string :=
  removelast (split_on newline text).

(** The level below which a positive amplitude converts to less than
    the floor value: [10 ** (-203.0103 / 20)]. *)
Definition silence_threshold : R := Rpower 10 (- (200 + db_offset) / 20).

(** [ladder hi ratio f l]: [l] is what the loop of [run_sweep] visits when
    it is entered at [f]: [f], [f * ratio], ... as long as the value is at
    most [hi]. *)
Inductive ladder (hi ratio : R) : R -> list R -> Prop :=
| ladder_stop (f : R) : hi < f -> ladder hi ratio f []
| ladder_step (f : R) (l : list R) :
    f <= hi -> ladder hi ratio (f * ratio) l -> ladder hi ratio f (f :: l).

Definition blank_free (s : string) : bool :=
  all_chars (fun c => negb (is_space c)) s.

(** [after] is empty or starts with a blank. *)
Definition ends_word (after : string) : Prop :=
  match after with
  | EmptyString => True
  | String c _ => is_space c = true
  end.

(** The namespace with the [--no-plot] flag set to [b]. *)
Definition with_no_plot (b : bool) (args : Namespace) : Namespace := {|
  arg_plugin := arg_plugin args;
  arg_params := arg_params args;
  arg_output := arg_output args;
  arg_f_min := arg_f_min args;
  arg_f_max := arg_f_max args;
  arg_steps := arg_steps args;
  arg_duration := arg_duration args;
  arg_y_min := arg_y_min args;
  arg_y_max := arg_y_max args;
  arg_no_plot := b
|}.

(** The tester with its [no_plot] attribute set to [b]. *)
Definition set_no_plot (b : bool) (t : PluginTester) : PluginTester := {|
  f_min := f_min t;
  f_max := f_max t;
  steps_per_oct := steps_per_oct t;
  duration := duration t;
  trim_start := trim_start t;
  trim_len := trim_len t;
  plugin_path := plugin_path t;
  plugin_label := plugin_label t;
  plugin_name := plugin_name t;
  num_inputs := num_inputs t;
  num_outputs := num_outputs t;
  parameters := parameters t;
  param_names := param_names t;
  no_plot := b;
  y_min := y_min t;
  y_max := y_max t;
  output_file := output_file t
|}.

Section Vocabulary.
Context {E : Externals}.

(** A tester whose measurements can start: the base duration is not
    zero, and the plugin path and label are known. *)
Definition ready (t : PluginTester) : Prop :=
  duration t <> 0 /\ plugin_path t <> None /\ plugin_label t <> None.

(** Every measurement returns to its caller, with a vector or [None]. *)
Definition measures (t : PluginTester) : Prop :=
  forall (f : R) (w : World),
    0 < f -> exists r w', measure_frequency t f w = (Ok r, w').

(** What can come out of the [try] block. *)
Inductive body_outcome (t : PluginTester)
  : result (option (list R)) -> Prop :=
| body_failed : body_outcome t (Ok None)
| body_measured v :
    List.length v = num_outputs t -> body_outcome t (Ok (Some v))
| body_value_error : body_outcome t (Raise ValueError)
| body_type_error :
    plugin_path t = None \/ plugin_label t = None ->
    body_outcome t (Raise TypeError).

(** What can come out of the first two steps. *)
Inductive signal_outcome (t : PluginTester)
  : result (option string) -> Prop :=
| signal_done (o : option string) : signal_outcome t (Ok o)
| signal_type_error :
    plugin_path t = None \/ plugin_label t = None ->
    signal_outcome t (Raise TypeError).

(** The dB vector the loop records for what [measure_frequency] gave. *)
Definition recorded (t : PluginTester) (rms_values : option (list R))
  : list R :=
  match rms_values with
  | Some rms_values => map rms_to_db rms_values
  | None => repeat db_floor (num_outputs t)
  end.

(** [swept t w rs w']: the records [rs] come from measuring their
    frequencies one after the other, once each, from the world [w] to
    the world [w']; a measurement that fails is recorded with the floor
    value on every channel and the next one follows. *)
Inductive swept (t : PluginTester)
  : World -> list record -> World -> Prop :=
| swept_done (w : World) : swept t w [] w
| swept_measured (w w1 w2 : World) (f : R) (v : list R)
                 (rs : list record) :
    measure_frequency t f w = (Ok (Some v), w1) ->
    swept t w1 rs w2 ->
    swept t w ((f, map rms_to_db v) :: rs) w2
| swept_failed (w w1 w2 : World) (f : R) (rs : list record) :
    measure_frequency t f w = (Ok None, w1) ->
    swept t w1 rs w2 ->
    swept t w ((f, repeat db_floor (num_outputs t)) :: rs) w2.

(** The word of the first RMS amplitude field of a report: the group
    matched on the first line that contains both [RMS] and
    [amplitude:] and on which the pattern matches. *)
Fixpoint first_rms_field (lines : list string) : option string :=
  match lines with
  | [] => None
  | line :: rest =>
      if contains "RMS" line && contains "amplitude:" line then
        match amplitude_search line with
        | Some word => Some word
        | None => first_rms_field rest
        end
      else first_rms_field rest
  end.

(** The RMS amplitude read from one report: 0 without a field, the
    number of the first field otherwise, [ValueError] when that word is
    not a number. *)
Definition channel_rms (report : string) : result R :=
  match first_rms_field (split_on newline report) with
  | None => Ok 0
  | Some word =>
      match float_of_str word with
      | Some rms => Ok rms
      | None => Raise ValueError
      end
  end.

(** The report of [sox <file> -n remix <ch + 1> stat]. *)
Definition stat_report (tmp_file : string) (ch : nat) (w : World)
  : string * World :=
  let (res, w1) :=
    subprocess_run
      ["sox"; tmp_file; "-n"; "remix"; str_nat (ch + 1); "stat"]%string w in
  ((stdout res ++ stderr res)%string, w1).

(** The channels read one after the other, up to the first report that
    cannot be read. *)
Fixpoint read_channels (tmp_file : string) (channels : list nat)
         (w : World) : result (list R) * World :=
  match channels with
  | [] => (Ok [], w)
  | ch :: rest =>
      let (report, w1) := stat_report tmp_file ch w in
      match channel_rms report with
      | Raise e => (Raise e, w1)
      | Ok rms =>
          let (r, w2) := read_channels tmp_file rest w1 in
          (match r with
           | Ok more => Ok (rms :: more)
           | Raise e => Raise e
           end, w2)
      end
  end.

End Vocabulary.

(** The configuration is rejected: the run ends with an exception and a
    non-zero exit status, in the world in which [parse_args] and
    [analyze_plugin] ended and with no file written. *)
Definition rejected {E : Externals} (args : Namespace) (w : World)
           (fs : FileStore) : Prop :=
  exists e : exn,
    exit_status (@Raise unit e) <> 0%Z
    /\ forall fuel : nat,
        run args fuel w fs
        = Some (Raise e,
                snd (bind (parse_args init args) analyze_plugin w), fs).

(* ================================================================= *)
(** * A test bench

    An instance of [Externals] on which the model can be run: every
    command is logged and ends with the exit status [status]; its standard
    error is [report]; temporary files are numbered. *)

Module Bench.
Record world : Type := {
  created : nat;
  commands : list (list string)
}.

Definition known_float (s : string) : option R :=
  if String.eqb s "0.5" then Some (1 / 2)
  else if String.eqb s "1.0" then Some 1
  else None.

Definition quoted (s : string) : string :=
  String quote (s ++ String quote "").

Definition line (s : string) : string := (s ++ String newline "")%string.

(** What [analyseplugin] prints for a plugin with two audio inputs, two
    audio outputs and one control. *)
Definition plugin_report : string :=
  (line ("Plugin Name: " ++ quoted "RIAA Filter")
   ++ line ("Plugin Label: " ++ quoted "riaa")
   ++ line ("Ports: " ++ quoted "Gain" ++ " input, control, -40 to 40")
   ++ line ("  " ++ quoted "Input L" ++ " input, audio")
   ++ line ("  " ++ quoted "Input R" ++ " input, audio")
   ++ line ("  " ++ quoted "Output L" ++ " output, audio")
   ++ line ("  " ++ quoted "Output R" ++ " output, audio"))%string.

Definition externals (status : Z) (report : string) : Externals := {|
  World := world;
  subprocess_run := fun cmd w =>
    (if String.eqb (hd ""%string cmd) "analyseplugin"
     then {| returncode := 0; stdout := plugin_report; stderr := "" |}
     else {| returncode := status; stdout := ""; stderr := report |},
     {| created := created w; commands := commands w ++ [cmd] |});
  NamedTemporaryFile := fun suffix w =>
    (("/tmp/tmp" ++ str_nat (created w) ++ suffix)%string,
     {| created := S (created w); commands := commands w |});
  unlink := fun _ w => w;
  path_exists := fun _ _ => true;
  str_float := fun _ => "x"%string;
  float_of_str := known_float;
  HAS_MATPLOTLIB := true;
  render := fun _ => "PNG"%string
|}.

Definition start : world := {| created := 0; commands := [] |}.

(** A report of [sox ... stat] with an RMS amplitude of 0.5. *)
Definition stat_report : string :=
  (line "Maximum amplitude:     0.707107"
   ++ line "RMS     amplitude:     0.5"
   ++ line "Volume adjustment:    1.414")%string.

(** The same report with a word that is not a number. *)
Definition bad_report : string :=
  (line "Maximum amplitude:     0.707107"
   ++ line "RMS     amplitude:     n/a"
   ++ line "Volume adjustment:    1.414")%string.

(** The namespace of [test-plugin.py riaa --f-min lo --f-max hi
    --steps steps]. *)
Definition arguments (lo hi : R) (steps : Z) : Namespace := {|
  arg_plugin := "riaa";
  arg_params := [];
  arg_output := None;
  arg_f_min := lo;
  arg_f_max := hi;
  arg_steps := steps;
  arg_duration := 1;
  arg_y_min := None;
  arg_y_max := None;
  arg_no_plot := false
|}.

(** The tester as [parse_args] and [analyze_plugin] leave it for these
    arguments. *)
Definition tester (lo hi : R) (steps : Z) : PluginTester := {|
  f_min := lo;
  f_max := hi;
  steps_per_oct := steps;
  duration := 1;
  trim_start := 2 / 10;
  trim_len := 6 / 10;
  plugin_path := Some "/usr/local/lib/ladspa/riaa.so"%string;
  plugin_label := Some "riaa"%string;
  plugin_name := Some "RIAA Filter"%string;
  num_inputs := 2;
  num_outputs := 2;
  parameters := [];
  param_names := ["Gain"%string];
  no_plot := false;
  y_min := None;
  y_max := None;
  output_file := Some "riaa_response.txt"%string
|}.
(** A bench on which every command ends with status 1 and prints
    nothing; [present] tells whether the plugin file exists. *)
Definition failing (present : bool) : Externals := {|
  World := world;
  subprocess_run := fun cmd w =>
    ({| returncode := 1; stdout := ""; stderr := "" |},
     {| created := created w; commands := commands w ++ [cmd] |});
  NamedTemporaryFile := fun suffix w =>
    (("/tmp/tmp" ++ str_nat (created w) ++ suffix)%string,
     {| created := S (created w); commands := commands w |});
  unlink := fun _ w => w;
  path_exists := fun _ _ => present;
  str_float := fun _ => "x"%string;
  float_of_str := known_float;
  HAS_MATPLOTLIB := false;
  render := fun _ => ""%string
|}.

(** A bench on which every command ends with status 0 and prints
    nothing. *)
Definition silent : Externals := {|
  World := world;
  subprocess_run := fun cmd w =>
    ({| returncode := 0; stdout := ""; stderr := "" |},
     {| created := created w; commands := commands w ++ [cmd] |});
  NamedTemporaryFile := fun suffix w =>
    (("/tmp/tmp" ++ str_nat (created w) ++ suffix)%string,
     {| created := S (created w); commands := commands w |});
  unlink := fun _ w => w;
  path_exists := fun _ _ => true;
  str_float := fun _ => "x"%string;
  float_of_str := known_float;
  HAS_MATPLOTLIB := false;
  render := fun _ => ""%string
|}.

(** The same tester when the output was given as [--output path]. *)
Definition tester_writing (path : string) : PluginTester := {|
  f_min := 5;
  f_max := 50000;
  steps_per_oct := 12;
  duration := 1;
  trim_start := 2 / 10;
  trim_len := 6 / 10;
  plugin_path := Some "/usr/local/lib/ladspa/riaa.so"%string;
  plugin_label := Some "riaa"%string;
  plugin_name := Some "RIAA Filter"%string;
  num_inputs := 2;
  num_outputs := 2;
  parameters := [];
  param_names := ["Gain"%string];
  no_plot := false;
  y_min := None;
  y_max := None;
  output_file := Some path
|}.
End Bench.

(* ================================================================= *)
(** * The text helpers at work *)

Open Scope string_scope.

Example split_on_ex :
  split_on newline ("a" ++ String newline ("b" ++ String newline ""))
  = ["a"; "b"; ""].
Proof. reflexivity. Qed.

Example replace_ex : replace ".txt" ".png" "a.txt.txtb" = "a.png.pngb".
Proof. reflexivity. Qed.

Example amplitude_search_ex :
  amplitude_search "RMS     amplitude:     0.707107" = Some "0.707107".
Proof. reflexivity. Qed.

Example amplitude_search_ex2 :
  amplitude_search "amplitude:x amplitude:  -1e3 z" = Some "-1e3".
Proof. reflexivity. Qed.

Example amplitude_search_ex3 : amplitude_search "RMS amplitude:   " = None.
Proof. reflexivity. Qed.

Example count_ex : count "input, audio" "a input, audio b input, audio" = 2%nat.
Proof. reflexivity. Qed.

Example strip_ex : strip "  riaa filter  " = "riaa filter".
Proof. reflexivity. Qed.

Example quoted_search_ex :
  quoted_search (String quote (String quote ("x" ++ Bench.quoted "Gain")))
  = Some "x".
Proof. reflexivity. Qed.

Close Scope string_scope.

(* ================================================================= *)
(** * Properties of the numeric helpers *)

Lemma Rleb_true (x y : R) : x <= y -> Rleb x y = true.
Proof. intros H; unfold Rleb; destruct (Rle_dec x y); [reflexivity | contradiction]. Qed.

Lemma Rleb_false (x y : R) : y < x -> Rleb x y = false.
Proof. intros H; unfold Rleb; destruct (Rle_dec x y); [lra | reflexivity]. Qed.

Lemma Rltb_true (x y : R) : x < y -> Rltb x y = true.
Proof. intros H; unfold Rltb; destruct (Rlt_dec x y); [reflexivity | contradiction]. Qed.

Lemma Rltb_false (x y : R) : y <= x -> Rltb x y = false.
Proof. intros H; unfold Rltb; destruct (Rlt_dec x y); [lra | reflexivity]. Qed.

Lemma Reqb_true (x y : R) : x = y -> Reqb x y = true.
Proof. intros H; unfold Reqb; destruct (Req_EM_T x y); [reflexivity | contradiction]. Qed.

Lemma Reqb_false (x y : R) : x <> y -> Reqb x y = false.
Proof. intros H; unfold Reqb; destruct (Req_EM_T x y); [contradiction | reflexivity]. Qed.

Lemma py_div_ok (a b : R) : b <> 0 -> py_div a b = Ok (a / b).
Proof. intros H; unfold py_div; rewrite Reqb_false by exact H; reflexivity. Qed.

Lemma py_div_zero (a : R) : py_div a 0 = Raise ZeroDivisionError.
Proof. unfold py_div; rewrite Reqb_true by reflexivity; reflexivity. Qed.

Lemma py_max_Rmax (a b : R) : py_max a b = Rmax a b.
Proof.
  unfold py_max, Rltb, Rmax.
  destruct (Rlt_dec a b), (Rle_dec a b); lra.
Qed.

Lemma py_min_Rmin (a b : R) : py_min a b = Rmin a b.
Proof.
  unfold py_min, Rltb, Rmin.
  destruct (Rlt_dec b a), (Rle_dec a b); lra.
Qed.

Lemma ln_10_pos : 0 < ln 10.
Proof. rewrite <- ln_1; apply ln_increasing; lra. Qed.

Lemma log10_1 : log10 1 = 0.
Proof. unfold log10; rewrite ln_1; field; pose proof ln_10_pos; lra. Qed.

Lemma log10_increasing (x y : R) : 0 < x -> x < y -> log10 x < log10 y.
Proof.
  intros Hx Hxy; unfold log10.
  apply Rmult_lt_compat_r.
  - apply Rinv_0_lt_compat, ln_10_pos.
  - apply ln_increasing; assumption.
Qed.

Lemma log10_Rpower (x : R) : log10 (Rpower 10 x) = x.
Proof.
  unfold log10; rewrite ln_Rpower; field.
  pose proof ln_10_pos; lra.
Qed.

Lemma Rpower_log10 (x : R) : 0 < x -> Rpower 10 (log10 x) = x.
Proof.
  intros Hx; unfold Rpower, log10.
  replace (ln x / ln 10 * ln 10) with (ln x)
    by (field; pose proof ln_10_pos; lra).
  apply exp_ln, Hx.
Qed.

Lemma log10_sqrt2 : log10 (sqrt 2) = log10 2 / 2.
Proof.
  unfold log10.
  rewrite <- Rpower_sqrt by lra.
  rewrite ln_Rpower; field.
  pose proof ln_10_pos; lra.
Qed.

(** A comparison of integer powers turned into a bound on a logarithm:
    from [a ^ q < b ^ p] follows [q * ln a < p * ln b]. *)
Lemma ln_pow_lt (a b p q : Z) :
  (0 < a)%Z -> (0 < b)%Z -> (0 <= p)%Z -> (0 <= q)%Z ->
  (a ^ q < b ^ p)%Z ->
  IZR q * ln (IZR a) < IZR p * ln (IZR b).
Proof.
  intros Ha Hb Hp Hq H.
  assert (Ha' : 0 < IZR a) by (apply IZR_lt; exact Ha).
  assert (Hb' : 0 < IZR b) by (apply IZR_lt; exact Hb).
  rewrite <- (Z2Nat.id q Hq), <- (Z2Nat.id p Hp) in H |- *.
  rewrite <- !INR_IZR_INZ, <- !ln_pow by assumption.
  apply ln_increasing.
  - apply pow_lt; exact Ha'.
  - rewrite !pow_IZR. apply IZR_lt; exact H.
Qed.

(** [643/2136 < log10 2 < 4004/13301], two convergents of its continued
    fraction. *)
Lemma log10_2_bounds : 643 / 2136 < log10 2 < 4004 / 13301.
Proof.
  pose proof ln_10_pos as H10.
  assert (Hlo : 643 * ln 10 < 2136 * ln 2).
  { apply (ln_pow_lt 10 2 2136 643); [lia | lia | lia | lia |].
    vm_compute; reflexivity. }
  assert (Hhi : 13301 * ln 2 < 4004 * ln 10).
  { apply (ln_pow_lt 2 10 4004 13301); [lia | lia | lia | lia |].
    vm_compute; reflexivity. }
  unfold log10. split.
  - apply Rmult_lt_reg_r with (ln 10); [exact H10 |].
    replace (ln 2 / ln 10 * ln 10) with (ln 2) by (field; lra). lra.
  - apply Rmult_lt_reg_r with (ln 10); [exact H10 |].
    replace (ln 2 / ln 10 * ln 10) with (ln 2) by (field; lra). lra.
Qed.

(** The constant of the source against the exact correction
    [20 * log10 (sqrt 2)]: the literal is larger, by less than 4e-7. *)
Lemma db_offset_error :
  0 < db_offset - 20 * log10 (sqrt 2) < 4 / 10000000.
Proof.
  rewrite log10_sqrt2. pose proof log10_2_bounds. unfold db_offset. lra.
Qed.

Lemma rms_to_db_pos (rms : R) :
  0 < rms -> rms_to_db rms = 20 * log10 rms + db_offset.
Proof. intros H; unfold rms_to_db; rewrite Rleb_false by exact H; reflexivity. Qed.

Lemma rms_to_db_nonpos (rms : R) : rms <= 0 -> rms_to_db rms = db_floor.
Proof. intros H; unfold rms_to_db; rewrite Rleb_true by exact H; reflexivity. Qed.

Lemma rms_to_db_increasing (x y : R) :
  0 < x -> x < y -> rms_to_db x < rms_to_db y.
Proof.
  intros Hx Hxy.
  rewrite !rms_to_db_pos by lra.
  pose proof (log10_increasing x y Hx Hxy). lra.
Qed.

Lemma log10_inv_sqrt2 : log10 (1 / sqrt 2) = - log10 (sqrt 2).
Proof.
  assert (Hs : 0 < sqrt 2) by (apply sqrt_lt_R0; lra).
  unfold log10.
  replace (1 / sqrt 2) with (/ sqrt 2) by (field; lra).
  rewrite ln_Rinv by exact Hs.
  field. pose proof ln_10_pos; lra.
Qed.

Lemma rms_to_db_below_floor (rms : R) :
  0 < rms -> (rms_to_db rms < db_floor <-> rms < silence_threshold).
Proof.
  intros Hpos. rewrite rms_to_db_pos by exact Hpos.
  unfold silence_threshold, db_floor. split; intros H.
  - rewrite <- (Rpower_log10 rms Hpos).
    apply Rpower_lt; lra.
  - assert (Hl : log10 rms < log10 (Rpower 10 (- (200 + db_offset) / 20))).
    { apply log10_increasing; assumption. }
    rewrite log10_Rpower in Hl. lra.
Qed.

Lemma log10_scaled (a : Z) (k : Z) :
  (0 < a)%Z -> (0 <= k)%Z ->
  log10 (IZR a / IZR (10 ^ k)) = ln (IZR a) / ln 10 - IZR k.
Proof.
  intros Ha Hk. unfold log10.
  assert (Ha' : 0 < IZR a) by (apply IZR_lt; exact Ha).
  change (IZR a / IZR (10 ^ k)) with (IZR a * / IZR (10 ^ k)).
  assert (Hp : 0 < IZR (10 ^ k)).
  { apply IZR_lt. apply Z.pow_pos_nonneg; lia. }
  rewrite ln_mult, ln_Rinv; try assumption.
  2: { apply Rinv_0_lt_compat; exact Hp. }
  rewrite <- (Z2Nat.id k Hk) at 1.
  rewrite <- pow_IZR, ln_pow by lra.
  rewrite INR_IZR_INZ, Z2Nat.id by exact Hk.
  field. pose proof ln_10_pos; lra.
Qed.

(** The threshold is about 7e-11. *)
Lemma silence_threshold_bounds :
  7 / 10 ^ 11 < silence_threshold < 71 / 10 ^ 12.
Proof.
  pose proof ln_10_pos as H10.
  assert (H7 : 13 * ln 7 < 11 * ln 10).
  { apply (ln_pow_lt 7 10 11 13); [lia | lia | lia | lia |].
    vm_compute; reflexivity. }
  assert (H71 : 37 * ln 10 < 20 * ln 71).
  { apply (ln_pow_lt 10 71 20 37); [lia | lia | lia | lia |].
    vm_compute; reflexivity. }
  assert (L7 : ln 7 / ln 10 < 11 / 13).
  { apply Rmult_lt_reg_r with (ln 10); [exact H10 |].
    replace (ln 7 / ln 10 * ln 10) with (ln 7) by (field; lra). lra. }
  assert (L71 : 37 / 20 < ln 71 / ln 10).
  { apply Rmult_lt_reg_r with (ln 10); [exact H10 |].
    replace (ln 71 / ln 10 * ln 10) with (ln 71) by (field; lra). lra. }
  assert (E7 : 7 / 10 ^ 11 = IZR 7 / IZR (10 ^ 11)).
  { rewrite (pow_IZR 10 11). reflexivity. }
  assert (E71 : 71 / 10 ^ 12 = IZR 71 / IZR (10 ^ 12)).
  { rewrite (pow_IZR 10 12). reflexivity. }
  unfold silence_threshold, db_offset. split.
  - rewrite <- (Rpower_log10 (7 / 10 ^ 11)) by lra.
    apply Rpower_lt; [lra |].
    rewrite E7, log10_scaled by lia. lra.
  - rewrite <- (Rpower_log10 (71 / 10 ^ 12)) by lra.
    apply Rpower_lt; [lra |].
    rewrite E71, log10_scaled by lia. lra.
Qed.

Lemma silence_threshold_pos : 0 < silence_threshold.
Proof. unfold silence_threshold, Rpower. apply exp_pos. Qed.

Lemma adaptive_duration_eq (frequency : R) :
  frequency <> 0 ->
  adaptive_duration frequency = Ok (Rmin (Rmax (100 * (1 / frequency)) 1) 10).
Proof.
  intros H. unfold adaptive_duration.
  rewrite py_div_ok by exact H. simpl.
  rewrite py_max_Rmax, py_min_Rmin. reflexivity.
Qed.

Lemma adaptive_duration_range (x : R) : 1 <= Rmin (Rmax x 1) 10 <= 10.
Proof.
  unfold Rmin, Rmax.
  destruct (Rle_dec x 1); destruct (Rle_dec _ 10); lra.
Qed.

Lemma window_eq (t : PluginTester) (frequency : R) :
  frequency <> 0 -> duration t <> 0 ->
  window t frequency =
  let ad := Rmin (Rmax (100 * (1 / frequency)) 1) 10 in
  Ok (ad, (2 / 10) * ad / duration t, (6 / 10) * ad / duration t).
Proof.
  intros Hf Hd. unfold window.
  rewrite adaptive_duration_eq by exact Hf. simpl.
  rewrite !py_div_ok by exact Hd. reflexivity.
Qed.

Lemma window_no_duration (t : PluginTester) (frequency : R) :
  frequency <> 0 -> duration t = 0 ->
  window t frequency = Raise ZeroDivisionError.
Proof.
  intros Hf Hd. unfold window.
  rewrite adaptive_duration_eq by exact Hf. simpl.
  rewrite Hd, py_div_zero. reflexivity.
Qed.

(* ================================================================= *)
(** * The measurement of one frequency *)

Section MeasurementFacts.
Context {E : Externals}.

Lemma parse_rms_raises (lines : list string) (e : exn) :
  parse_rms lines = Raise e -> e = ValueError.
Proof.
  induction lines as [| line rest IH]; simpl; [discriminate |].
  destruct (contains "RMS" line && contains "amplitude:" line); [| exact IH].
  destruct (amplitude_search line); [| exact IH].
  destruct (float_of_str s); [discriminate |].
  intros H; injection H as <-; reflexivity.
Qed.

(** The channel loop ends with one more value per channel, or with a
    [ValueError]. *)
Lemma measure_channels_outcome (tmp_file : string) (channels : list nat) :
  forall (acc : list R) (w : World),
    (exists v w', measure_channels tmp_file channels acc w = (Ok v, w')
                  /\ List.length v = (List.length acc + List.length channels)%nat)
    \/ (exists w', measure_channels tmp_file channels acc w
                   = (Raise ValueError, w')).
Proof.
  induction channels as [| ch rest IH]; intros acc w; simpl.
  - left. exists acc, w. split; [reflexivity | lia].
  - unfold bind, call, lift.
    destruct (subprocess_run _ w) as [res w1].
    destruct (parse_rms _) as [rms | e] eqn:P.
    + destruct (IH (acc ++ [match rms with Some r => r | None => 0 end]) w1)
        as [(v & w' & Hv & Hl) | (w' & Hv)].
      * left. exists v, w'. split; [exact Hv |].
        rewrite Hl, length_app; simpl; lia.
      * right. exists w'; exact Hv.
    + right. exists w1. rewrite (parse_rms_raises _ _ P). reflexivity.
Qed.

Lemma process_signal_outcome (t : PluginTester) (frequency ad ts tl : R)
      (tmp_input tmp_output : string) (w : World) :
  signal_outcome t
    (fst (process_signal t frequency ad ts tl tmp_input tmp_output w)).
Proof.
  unfold process_signal, bind at 1, call at 1.
  destruct (subprocess_run _ w) as [res w1].
  destruct (negb (returncode res =? 0)%Z); [apply signal_done |].
  destruct (match plugin_label t with
            | Some l => String.eqb l "riaa"
            | None => false
            end).
  - unfold bind at 1, call at 1.
    destruct (subprocess_run _ w1) as [res2 w2].
    destruct (negb (returncode res2 =? 0)%Z); apply signal_done.
  - unfold bind at 1, argv_word at 1.
    destruct (plugin_path t) as [path |] eqn:Hp.
    2: { simpl. apply signal_type_error. left; exact Hp. }
    unfold ret at 1. unfold bind at 1, argv_word at 1.
    destruct (plugin_label t) as [label |] eqn:Hl.
    2: { simpl. apply signal_type_error. right; exact Hl. }
    unfold ret at 1. unfold bind at 1, call at 1.
    destruct (subprocess_run _ w1) as [res2 w2].
    destruct (negb (returncode res2 =? 0)%Z); apply signal_done.
Qed.

Lemma measure_body_outcome (t : PluginTester) (frequency ad ts tl : R)
      (tmp_input tmp_output : string) (w : World) :
  body_outcome t
    (fst (measure_body t frequency ad ts tl tmp_input tmp_output w)).
Proof.
  unfold measure_body, bind at 1.
  pose proof (process_signal_outcome t frequency ad ts tl
                                     tmp_input tmp_output w) as Hs.
  destruct (process_signal _ _ _ _ _ _ _ w) as [r w1].
  simpl in Hs. inversion Hs as [o Ho | Hnone Ho]; subst r.
  - destruct o as [tmp |]; [| apply body_failed].
    unfold bind.
    destruct (measure_channels_outcome tmp (seq 0 (num_outputs t)) [] w1)
      as [(v & w' & Hv & Hl) | (w' & Hv)]; rewrite Hv; simpl.
    + apply body_measured. rewrite Hl, length_seq. reflexivity.
    + apply body_value_error.
  - simpl. apply body_type_error. exact Hnone.
Qed.

Lemma measure_frequency_outcome (t : PluginTester) (f : R) (w : World) :
  f <> 0 -> duration t <> 0 ->
  (exists w', measure_frequency t f w = (Ok None, w'))
  \/ (exists v w', measure_frequency t f w = (Ok (Some v), w')
                   /\ List.length v = num_outputs t)
  \/ (exists w', measure_frequency t f w = (Raise TypeError, w')
                 /\ (plugin_path t = None \/ plugin_label t = None)).
Proof.
  intros Hf Hd.
  destruct (measure_frequency t f w) as [r w'] eqn:Hm.
  unfold measure_frequency in Hm.
  unfold bind at 1, lift at 1 in Hm.
  rewrite (window_eq t f Hf Hd) in Hm. cbv zeta beta iota in Hm.
  unfold bind at 1, call at 1 in Hm.
  destruct (NamedTemporaryFile _ w) as [tmp_input w1].
  unfold bind at 1, call at 1 in Hm.
  destruct (NamedTemporaryFile _ w1) as [tmp_output w2].
  unfold try_finally, try_except in Hm.
  match type of Hm with
  | context [measure_body ?a ?b ?c ?d ?e ?g ?h ?i] =>
      pose proof (measure_body_outcome a b c d e g h i) as Hout;
      destruct (measure_body a b c d e g h i) as [r3 w3]
  end.
  simpl in Hout.
  inversion Hout as [Hr | v Hv Hr | Hr | Hnone Hr]; subst r3;
    cbn in Hm; injection Hm as <- <-.
  - left. eexists; reflexivity.
  - right; left. eexists _, _; split; [reflexivity | exact Hv].
  - left. eexists; reflexivity.
  - right; right. eexists; split; [reflexivity | exact Hnone].
Qed.

Lemma ready_measures (t : PluginTester) : ready t -> measures t.
Proof.
  intros (Hd & Hp & Hl) f w Hf.
  destruct (measure_frequency_outcome t f w) as [(w' & H) | [(v & w' & H & _) | (w' & H & [Hn | Hn])]];
    try lra; try exact Hd; try contradiction; eauto.
Qed.

Lemma measure_frequency_length (t : PluginTester) (f : R) (w w' : World)
      (v : list R) :
  measure_frequency t f w = (Ok (Some v), w') -> List.length v = num_outputs t.
Proof.
  intros H.
  destruct (Req_EM_T f 0) as [Hf | Hf].
  { unfold measure_frequency, bind at 1, lift at 1, window in H.
    unfold adaptive_duration in H. rewrite Hf, py_div_zero in H.
    simpl in H. discriminate. }
  destruct (Req_EM_T (duration t) 0) as [Hd | Hd].
  { unfold measure_frequency, bind at 1, lift at 1 in H.
    rewrite (window_no_duration t f Hf Hd) in H. discriminate. }
  destruct (measure_frequency_outcome t f w Hf Hd)
    as [(w1 & H1) | [(v1 & w1 & H1 & Hl) | (w1 & H1 & _)]];
    rewrite H1 in H; inversion H; subst; exact Hl.
Qed.
End MeasurementFacts.

(* ================================================================= *)
(** * The sweep *)

Lemma ladder_nth (hi ratio f : R) (l : list R) :
  ladder hi ratio f l ->
  forall i, (i < List.length l)%nat -> nth i l 0 = f * ratio ^ i.
Proof.
  induction 1 as [f Hf | f l Hf Hl IH]; intros i Hi; simpl in Hi; [lia |].
  destruct i as [| i]; simpl; [lra |].
  rewrite IH by lia. ring.
Qed.

Lemma ladder_bounded (hi ratio f : R) (l : list R) :
  ladder hi ratio f l -> Forall (fun x => x <= hi) l.
Proof. induction 1; constructor; assumption. Qed.

Lemma ladder_next (hi ratio f : R) (l : list R) :
  ladder hi ratio f l -> hi < f * ratio ^ List.length l.
Proof.
  induction 1 as [f Hf | f l Hf Hl IH]; simpl; [lra |].
  replace (f * (ratio * ratio ^ List.length l))
    with (f * ratio * ratio ^ List.length l) by ring.
  exact IH.
Qed.

Lemma ladder_last (hi ratio f : R) (l : list R) :
  ladder hi ratio f l -> l <> [] -> hi < last l 0 * ratio.
Proof.
  induction 1 as [f Hf | f l Hf Hl IH]; intros Hne; [contradiction |].
  destruct l as [| g l'].
  - simpl. inversion Hl; subst. assumption.
  - change (last (f :: g :: l') 0) with (last (g :: l') 0).
    apply IH. discriminate.
Qed.

Lemma pow_increasing (r : R) (i j : nat) :
  1 < r -> (i < j)%nat -> r ^ i < r ^ j.
Proof. intros Hr Hij. apply Rlt_pow; assumption. Qed.

Lemma ladder_increasing (hi ratio f : R) (l : list R) :
  0 < f -> 1 < ratio -> ladder hi ratio f l ->
  forall i j, (i < j)%nat -> (j < List.length l)%nat -> nth i l 0 < nth j l 0.
Proof.
  intros Hf Hr Hl i j Hij Hj.
  rewrite (ladder_nth _ _ _ _ Hl i), (ladder_nth _ _ _ _ Hl j) by lia.
  apply Rmult_lt_compat_l; [exact Hf |].
  apply pow_increasing; assumption.
Qed.

Lemma ladder_adjacent (hi ratio f : R) (l : list R) :
  ladder hi ratio f l ->
  forall i, (S i < List.length l)%nat -> nth (S i) l 0 = nth i l 0 * ratio.
Proof.
  intros Hl i Hi.
  rewrite (ladder_nth _ _ _ _ Hl i), (ladder_nth _ _ _ _ Hl (S i)) by lia.
  simpl. ring.
Qed.

(** The ratio between neighbouring frequencies. *)
Lemma step_ratio_eq (t : PluginTester) :
  steps_per_oct t <> 0%Z ->
  step_ratio t = Ok (Rpower 2 (1 / IZR (steps_per_oct t))).
Proof.
  intros H. unfold step_ratio.
  rewrite py_div_ok; [reflexivity |].
  intros H0. apply eq_IZR_R0 in H0. contradiction.
Qed.

Lemma step_ratio_zero (t : PluginTester) :
  steps_per_oct t = 0%Z -> step_ratio t = Raise ZeroDivisionError.
Proof. intros H. unfold step_ratio. rewrite H, py_div_zero. reflexivity. Qed.

Lemma step_ratio_up (n : Z) : (1 <= n)%Z -> 1 < Rpower 2 (1 / IZR n).
Proof.
  intros H. rewrite <- (Rpower_O 2) at 1 by lra.
  apply Rpower_lt; [lra |].
  apply Rdiv_lt_0_compat; [lra |]. apply IZR_lt; lia.
Qed.

Lemma step_ratio_down (n : Z) : (n < 0)%Z -> 0 < Rpower 2 (1 / IZR n) < 1.
Proof.
  intros H. split; [apply exp_pos |].
  rewrite <- (Rpower_O 2) at 2 by lra.
  apply Rpower_lt; [lra |].
  assert (Hn : IZR n < 0) by (apply IZR_lt; exact H).
  unfold Rdiv. rewrite Rmult_1_l. apply Rinv_lt_0_compat; exact Hn.
Qed.

(** A geometric progression with ratio above 1 passes every bound. *)
Lemma geometric_unbounded (f r hi : R) :
  0 < f -> 1 < r -> exists n, hi < f * r ^ n.
Proof.
  intros Hf Hr.
  destruct (Pow_x_infinity r) with (b := hi / f + 1) as [N HN].
  { rewrite Rabs_right; lra. }
  exists N. specialize (HN N (le_n N)).
  rewrite Rabs_right in HN.
  2: { apply Rle_ge, pow_le; lra. }
  assert (H : hi / f < r ^ N) by lra.
  apply Rmult_lt_compat_l with (r := f) in H; [| exact Hf].
  replace (f * (hi / f)) with hi in H by (field; lra).
  exact H.
Qed.

Section SweepFacts.
Context {E : Externals}.

Lemma sweep_loop_exit (t : PluginTester) (fuel : nat) (f : R)
      (acc : list record) (w : World) :
  f_max t < f -> sweep_loop t fuel f acc w = Some (Ok acc, w).
Proof.
  intros H. destruct fuel; simpl; rewrite Rleb_false by exact H; reflexivity.
Qed.

Lemma sweep_loop_step (t : PluginTester) (fuel : nat) (f ratio : R)
      (acc : list record) (w w1 : World) (rms : option (list R)) :
  f <= f_max t ->
  measure_frequency t f w = (Ok rms, w1) ->
  step_ratio t = Ok ratio ->
  sweep_loop t (S fuel) f acc w
  = sweep_loop t fuel (f * ratio) (acc ++ [(f, recorded t rms)]) w1.
Proof.
  intros Hf Hm Hr. simpl.
  rewrite Rleb_true by exact Hf. rewrite Hm, Hr.
  destruct rms; reflexivity.
Qed.

Lemma sweep_loop_measure_raises (t : PluginTester) (fuel : nat) (f : R)
      (acc : list record) (w w1 : World) (e : exn) :
  f <= f_max t ->
  measure_frequency t f w = (Raise e, w1) ->
  sweep_loop t (S fuel) f acc w = Some (Raise e, w1).
Proof.
  intros Hf Hm. simpl. rewrite Rleb_true by exact Hf. rewrite Hm.
  reflexivity.
Qed.

Lemma sweep_loop_ratio_raises (t : PluginTester) (fuel : nat) (f : R)
      (acc : list record) (w w1 : World) (rms : option (list R))
      (e : exn) :
  f <= f_max t ->
  measure_frequency t f w = (Ok rms, w1) ->
  step_ratio t = Raise e ->
  sweep_loop t (S fuel) f acc w = Some (Raise e, w1).
Proof.
  intros Hf Hm Hr. simpl. rewrite Rleb_true by exact Hf. rewrite Hm, Hr.
  reflexivity.
Qed.

Lemma sweep_loop_out_of_fuel (t : PluginTester) (f : R)
      (acc : list record) (w : World) :
  f <= f_max t -> sweep_loop t 0 f acc w = None.
Proof. intros Hf. simpl. rewrite Rleb_true by exact Hf. reflexivity. Qed.

Lemma swept_cons (t : PluginTester) (w w1 w2 : World) (f : R)
      (rms : option (list R)) (rs : list record) :
  measure_frequency t f w = (Ok rms, w1) ->
  swept t w1 rs w2 ->
  swept t w ((f, recorded t rms) :: rs) w2.
Proof.
  intros Hm Hs. destruct rms as [v |]; simpl.
  - eapply swept_measured; eassumption.
  - eapply swept_failed; eassumption.
Qed.

(** With a ratio above 1 the loop ends: [n] iterations suffice as soon
    as the [n]-th value of the progression is beyond [f_max]. *)
Lemma sweep_loop_runs (t : PluginTester) (ratio : R) :
  step_ratio t = Ok ratio -> 1 < ratio -> measures t ->
  forall (n : nat) (f : R) (acc : list record) (fuel : nat) (w : World),
    0 < f -> f_max t < f * ratio ^ n -> (n <= fuel)%nat ->
    exists rs w',
      sweep_loop t fuel f acc w = Some (Ok (acc ++ rs), w')
      /\ swept t w rs w'
      /\ ladder (f_max t) ratio f (map fst rs).
Proof.
  intros Hratio Hr Hm.
  induction n as [| n IH]; intros f acc fuel w Hf Hn Hfuel.
  - exists [], w. simpl in Hn. rewrite app_nil_r.
    split; [apply sweep_loop_exit; lra |].
    split; [constructor |]. constructor; lra.
  - destruct (Rle_dec f (f_max t)) as [Hle | Hgt].
    + destruct fuel as [| fuel]; [lia |].
      destruct (Hm f w Hf) as (rms & w1 & Hmf).
      rewrite (sweep_loop_step t fuel f ratio acc w w1 rms Hle Hmf Hratio).
      destruct (IH (f * ratio) (acc ++ [(f, recorded t rms)]) fuel w1)
        as (rs & w' & Hrun & Hsw & Hlad).
      * apply Rmult_lt_0_compat; lra.
      * simpl in Hn. replace (f * ratio * ratio ^ n)
          with (f * (ratio * ratio ^ n)) by ring. exact Hn.
      * lia.
      * exists ((f, recorded t rms) :: rs), w'.
        rewrite Hrun, <- app_assoc. simpl.
        split; [reflexivity |].
        split; [eapply swept_cons; eassumption |].
        constructor; assumption.
    + exists [], w. rewrite app_nil_r.
      split; [apply sweep_loop_exit; lra |].
      split; [constructor |]. constructor; lra.
Qed.

(** A sweep over a valid configuration returns, and what it returns is
    a ladder measured step by step. *)
Lemma run_sweep_returns (t : PluginTester) :
  0 < f_min t -> (1 <= steps_per_oct t)%Z -> measures t ->
  exists N : nat,
    forall (fuel : nat) (w : World),
      (N <= fuel)%nat ->
      exists rs w',
        run_sweep t fuel w = Some (Ok rs, w')
        /\ swept t w rs w'
        /\ ladder (f_max t) (Rpower 2 (1 / IZR (steps_per_oct t)))
                  (f_min t) (map fst rs).
Proof.
  intros Hf Hs Hm.
  set (ratio := Rpower 2 (1 / IZR (steps_per_oct t))).
  assert (Hr : 1 < ratio) by (apply step_ratio_up; exact Hs).
  destruct (geometric_unbounded (f_min t) ratio (f_max t) Hf Hr) as [n Hn].
  exists n. intros fuel w Hfuel.
  destruct (sweep_loop_runs t ratio) with (n := n) (f := f_min t)
    (acc := @nil record) (fuel := fuel) (w := w)
    as (rs & w' & Hrun & Hsw & Hlad); try assumption.
  { apply step_ratio_eq. lia. }
  exists rs, w'. split; [exact Hrun |]. split; assumption.
Qed.

(** Every record of a returned sweep has one value per output channel. *)
Lemma sweep_loop_shape (t : PluginTester) (fuel : nat) :
  forall (f : R) (acc rs : list record) (w w' : World),
    Forall (fun r => List.length (snd r) = num_outputs t) acc ->
    sweep_loop t fuel f acc w = Some (Ok rs, w') ->
    Forall (fun r => List.length (snd r) = num_outputs t) rs.
Proof.
  induction fuel as [| fuel IH]; intros f acc rs w w' Hacc H; simpl in H.
  - destruct (Rleb f (f_max t)); [discriminate |].
    injection H as <- <-. exact Hacc.
  - destruct (Rleb f (f_max t)).
    2: { injection H as <- <-. exact Hacc. }
    destruct (measure_frequency t f w) as [[rms | e] w1] eqn:Hm;
      [| discriminate].
    destruct (step_ratio t) as [ratio | e]; [| discriminate].
    apply IH in H; [exact H |].
    apply Forall_app. split; [exact Hacc |].
    constructor; [| constructor]. simpl.
    destruct rms as [v |].
    + rewrite length_map. eapply measure_frequency_length; eassumption.
    + apply repeat_length.
Qed.

(** With a negative step count the loop never reaches its exit test
    with a value above [f_max]. *)
Lemma sweep_loop_descends (t : PluginTester) :
  (steps_per_oct t < 0)%Z -> measures t ->
  forall (fuel : nat) (f : R) (acc : list record) (w : World),
    0 < f -> f <= f_max t -> sweep_loop t fuel f acc w = None.
Proof.
  intros Hs Hm. induction fuel as [| fuel IH]; intros f acc w Hf Hle.
  - apply sweep_loop_out_of_fuel; exact Hle.
  - destruct (Hm f w Hf) as (rms & w1 & Hmf).
    pose proof (step_ratio_down _ Hs) as [Hr0 Hr1].
    rewrite (sweep_loop_step t fuel f _ acc w w1 rms Hle Hmf
                             (step_ratio_eq t ltac:(lia))).
    apply IH.
    + apply Rmult_lt_0_compat; assumption.
    + apply Rle_trans with (f * 1); [| lra].
      apply Rmult_le_compat_l; lra.
Qed.
End SweepFacts.

(* ================================================================= *)
(** * The test bench at work *)

Lemma bench_configured (status : Z) (report : string) (lo hi : R) (steps : Z) :
  let E := Bench.externals status report in
  bind (parse_args init (Bench.arguments lo hi steps)) analyze_plugin
       Bench.start
  = (Ok (Bench.tester lo hi steps),
     {| Bench.created := 0;
        Bench.commands :=
          [["analyseplugin"; "/usr/local/lib/ladspa/riaa.so"]%string] |}).
Proof. reflexivity. Qed.

Lemma bench_ready (lo hi : R) (steps : Z) : ready (Bench.tester lo hi steps).
Proof.
  unfold ready; simpl. repeat split; try discriminate. lra.
Qed.

Lemma bench_measures (status : Z) (report : string) (lo hi : R) (steps : Z) :
  @measures (Bench.externals status report) (Bench.tester lo hi steps).
Proof. apply ready_measures, bench_ready. Qed.

Ltac run_bench :=
  cbv -[Rdiv Rmult Rplus Rminus IZR Rmin Rmax Rinv Ropp
        Bench.commands app List.length].

(** On the bench a measurement takes four commands: the tone, the
    plugin, and the statistics of the two channels. *)
Lemma bench_measure_ok (lo hi : R) (steps : Z) (f : R) (w : Bench.world) :
  f <> 0 ->
  exists w',
    @measure_frequency (Bench.externals 0 Bench.stat_report)
                       (Bench.tester lo hi steps) f w
    = (Ok (Some [1 / 2; 1 / 2]), w')
    /\ List.length (Bench.commands w')
       = (4 + List.length (Bench.commands w))%nat.
Proof.
  intros Hf. unfold measure_frequency, bind at 1, lift at 1.
  rewrite window_eq by (simpl; lra). cbv zeta beta iota.
  run_bench.
  eexists. split; [reflexivity |].
  simpl. rewrite !length_app. simpl. lia.
Qed.

(** With a word that is not a number in the first channel's report the
    measurement ends after three commands, with [None]. *)
Lemma bench_measure_bad (lo hi : R) (steps : Z) (f : R) (w : Bench.world) :
  f <> 0 ->
  exists w',
    @measure_frequency (Bench.externals 0 Bench.bad_report)
                       (Bench.tester lo hi steps) f w
    = (Ok None, w')
    /\ List.length (Bench.commands w')
       = (3 + List.length (Bench.commands w))%nat.
Proof.
  intros Hf. unfold measure_frequency, bind at 1, lift at 1.
  rewrite window_eq by (simpl; lra). cbv zeta beta iota.
  run_bench.
  eexists. split; [reflexivity |].
  simpl. rewrite !length_app. simpl. lia.
Qed.

(* ================================================================= *)
(** * The frequency ladder *)

Section SweepReturns.
Context {E : Externals}.

Lemma run_sweep_empty (t : PluginTester) (fuel : nat) (w : World) :
  f_max t < f_min t -> run_sweep t fuel w = Some (Ok [], w).
Proof. intros H. unfold run_sweep. apply sweep_loop_exit; exact H. Qed.

(** Whatever a sweep returns was measured step by step. *)
Lemma sweep_loop_swept (t : PluginTester) (fuel : nat) :
  forall (f : R) (acc rs : list record) (w w' : World),
    sweep_loop t fuel f acc w = Some (Ok rs, w') ->
    exists new, rs = (acc ++ new)%list /\ swept t w new w'.
Proof.
  induction fuel as [| fuel IH]; intros f acc rs w w' H; simpl in H.
  - destruct (Rleb f (f_max t)); [discriminate |].
    injection H as <- <-. exists []. rewrite app_nil_r.
    split; [reflexivity | constructor].
  - destruct (Rleb f (f_max t)).
    2: { injection H as <- <-. exists []. rewrite app_nil_r.
         split; [reflexivity | constructor]. }
    destruct (measure_frequency t f w) as [[rms | e] w1] eqn:Hm;
      [| discriminate].
    destruct (step_ratio t) as [ratio | e]; [| discriminate].
    apply IH in H. destruct H as (new & -> & Hs).
    exists ((f, recorded t rms) :: new). rewrite <- app_assoc.
    split; [reflexivity |].
    eapply swept_cons; eassumption.
Qed.

Lemma swept_split (t : PluginTester) (before after : list record)
      (r : record) :
  forall (w w' : World),
    swept t w (before ++ r :: after) w' ->
    exists w1 w2 rms,
      swept t w before w1
      /\ measure_frequency t (fst r) w1 = (Ok rms, w2)
      /\ snd r = recorded t rms
      /\ swept t w2 after w'.
Proof.
  induction before as [| b before IH]; intros w w' H; simpl in H.
  - inversion H as [| wa wb wc f v rs Hm Hs | wa wb wc f rs Hm Hs]; subst.
    + exists w, wb, (Some v). repeat split; try assumption. constructor.
    + exists w, wb, None. repeat split; try assumption. constructor.
  - inversion H as [| wa wb wc f v rs Hm Hs | wa wb wc f rs Hm Hs]; subst;
      destruct (IH _ _ Hs) as (w1 & w2 & rms & Hb & Hm' & Hr & Ha);
      exists w1, w2, rms; repeat split; try assumption.
    + eapply swept_measured; eassumption.
    + eapply swept_failed; eassumption.
Qed.
End SweepReturns.



(** The sweep of the specification's scenario: 100, 200 and 400 Hz. *)
Example ladder_100_400 (l : list R) :
  ladder 400 (Rpower 2 (1 / IZR 1)) 100 l -> l = [100; 200; 400].
Proof.
  replace (Rpower 2 (1 / IZR 1)) with 2.
  2: { replace (1 / IZR 1) with 1 by field. symmetry; apply Rpower_1; lra. }
  intros H.
  inversion H as [| f1 l1 H1 L1]; subst; [lra |].
  inversion L1 as [| f2 l2 H2 L2]; subst; [lra |].
  inversion L2 as [| f3 l3 H3 L3]; subst; [lra |].
  inversion L3 as [| f4 l4 H4 L4]; subst; [| lra].
  repeat f_equal; lra.
Qed.

(* ================================================================= *)
(** * Failed measurements *)

(** C4.  With a positive start frequency and at least one step per
    octave the sweep returns one record per ladder frequency whatever
    measurements fail: the frequencies of the records are the whole
    ladder, and the record at any position comes from one call of
    [measure_frequency], made in the world the records before it left;
    if that call returned [None] the record holds the floor value -200
    once per output channel, and the records after it are measured from
    the world that call left. *)
Theorem sweep_resilience {E : Externals} (t : PluginTester) :
  0 < f_min t -> (1 <= steps_per_oct t)%Z -> measures t ->
  exists N : nat,
    forall (fuel : nat) (w : World),
      (N <= fuel)%nat ->
      exists rs w',
        run_sweep t fuel w = Some (Ok rs, w')
        /\ ladder (f_max t) (Rpower 2 (1 / IZR (steps_per_oct t)))
                  (f_min t) (map fst rs)
        /\ forall before f dbs after,
            rs = (before ++ (f, dbs) :: after)%list ->
            exists w1 w2 rms,
              swept t w before w1
              /\ measure_frequency t f w1 = (Ok rms, w2)
              /\ (rms = None -> dbs = repeat (-200) (num_outputs t))
              /\ swept t w2 after w'.
Proof.
  intros Hlo Hs Hm.
  destruct (run_sweep_returns t Hlo Hs Hm) as [N HN].
  exists N. intros fuel w Hfuel.
  destruct (HN fuel w Hfuel) as (rs & w' & Hrun & Hsw & Hlad).
  exists rs, w'. split; [exact Hrun |]. split; [exact Hlad |].
  intros before f dbs after ->.
  destruct (swept_split t before after (f, dbs) w w' Hsw)
    as (w1 & w2 & rms & Hb & Hmf & Hr & Ha).
  exists w1, w2, rms. simpl in Hmf, Hr.
  repeat split; try assumption.
  intros ->. exact Hr.
Qed.

(** A sweep in which every tool invocation fails. *)
Lemma sweep_resilience_witness :
  let E := Bench.externals 1 Bench.stat_report in
  let t := Bench.tester 100 400 1 in
  exists N : nat,
    forall (fuel : nat) (w : World),
      (N <= fuel)%nat ->
      exists rs w',
        run_sweep t fuel w = Some (Ok rs, w')
        /\ ladder (f_max t) (Rpower 2 (1 / IZR (steps_per_oct t)))
                  (f_min t) (map fst rs)
        /\ forall before f dbs after,
            rs = (before ++ (f, dbs) :: after)%list ->
            exists w1 w2 rms,
              swept t w before w1
              /\ measure_frequency t f w1 = (Ok rms, w2)
              /\ (rms = None -> dbs = repeat (-200) (num_outputs t))
              /\ swept t w2 after w'.
Proof.
  intros E t.
  apply (@sweep_resilience E t); simpl; try lra; try lia.
  apply bench_measures.
Defined.

(* ================================================================= *)
(** * The shape of a record *)

(** C5.  Every record of a sweep that returns has exactly
    [num_outputs] dB values; the record of a failed measurement has the
    floor value in each of them. *)
Theorem record_shape {E : Externals} (t : PluginTester) (fuel : nat)
        (w w' : World) (rs : list record) :
  run_sweep t fuel w = Some (Ok rs, w') ->
  Forall (fun r => List.length (snd r) = num_outputs t) rs
  /\ forall before f dbs after,
      rs = (before ++ (f, dbs) :: after)%list ->
      exists w1 w2 rms,
        measure_frequency t f w1 = (Ok rms, w2)
        /\ (rms = None ->
            dbs = repeat (-200) (num_outputs t)
            /\ List.length dbs = num_outputs t).
Proof.
  intros H. split.
  - eapply sweep_loop_shape; [constructor | exact H].
  - intros before f dbs after ->.
    apply sweep_loop_swept in H. destruct H as (new & Hn & Hsw).
    simpl in Hn. subst new.
    destruct (swept_split t before after (f, dbs) w w' Hsw)
      as (w1 & w2 & rms & _ & Hmf & Hr & _).
    exists w1, w2, rms. simpl in Hmf, Hr.
    split; [exact Hmf |].
    intros ->. simpl in Hr. subst dbs.
    split; [reflexivity | apply repeat_length].
Qed.

Lemma record_shape_witness :
  let E := Bench.externals 0 Bench.stat_report in
  let t := Bench.tester 100 400 1 in
  exists (fuel : nat) (rs : list record) (w' : World),
    run_sweep t fuel Bench.start = Some (Ok rs, w')
    /\ Forall (fun r => List.length (snd r) = num_outputs t) rs
    /\ forall before f dbs after,
        rs = (before ++ (f, dbs) :: after)%list ->
        exists w1 w2 rms,
          measure_frequency t f w1 = (Ok rms, w2)
          /\ (rms = None ->
              dbs = repeat (-200) (num_outputs t)
              /\ List.length dbs = num_outputs t).
Proof.
  intros E t.
  destruct (@run_sweep_returns E t) as [N HN];
    [simpl; lra | simpl; lia | apply bench_measures |].
  destruct (HN N Bench.start (le_n N)) as (rs & w' & Hrun & _).
  exists N, rs, w'. split; [exact Hrun |].
  exact (@record_shape E t N Bench.start w' rs Hrun).
Defined.

(* ================================================================= *)
(** * Step counts that are not positive *)




(* ================================================================= *)
(** * The conversion to dB *)




(* ================================================================= *)
(** * Amplitudes below the floor *)

(** C9.  The floor -200 is not a lower bound of the conversion: a
    positive amplitude converts to less than -200 exactly when it is
    below [10 ** (-203.0103 / 20)], which lies between 7e-11 and 7.1e-11;
    1e-11 is such an amplitude.  The plotter's filter [db > -200] drops
    such a value just as it drops the floor value of a failed
    measurement. *)
Theorem floor_not_a_lower_bound :
  silence_threshold = Rpower 10 (- (200 + 30103 / 10000) / 20)
  /\ 7 / 10 ^ 11 < silence_threshold < 71 / 10 ^ 12
  /\ (forall rms, 0 < rms ->
        (rms_to_db rms < -200 <-> rms < silence_threshold))
  /\ (0 < 1 / 10 ^ 11 /\ rms_to_db (1 / 10 ^ 11) < -200)
  /\ (forall rms ch results dbs,
        0 < rms -> rms < silence_threshold ->
        measured_column ch results = Ok dbs ->
        ~ In (rms_to_db rms) dbs /\ ~ In (-200) dbs).
Proof.
  pose proof silence_threshold_bounds as Hb.
  split; [reflexivity |].
  split; [exact Hb |].
  split; [exact rms_to_db_below_floor |].
  split.
  - assert (Hp : 0 < 1 / 10 ^ 11) by (apply Rdiv_lt_0_compat; lra).
    split; [exact Hp |].
    apply (rms_to_db_below_floor _ Hp).
    apply Rlt_trans with (7 / 10 ^ 11); [| apply Hb].
    apply Rmult_lt_compat_r; [| lra].
    apply Rinv_0_lt_compat; lra.
  - intros rms ch results dbs Hpos Hlt Hcol.
    apply (rms_to_db_below_floor _ Hpos) in Hlt.
    unfold measured_column in Hcol.
    destruct (column ch results) as [all |]; [| discriminate].
    simpl in Hcol. injection Hcol as <-.
    split; intros Hin; apply filter_In in Hin; destruct Hin as [_ Hkeep];
      unfold Rltb in Hkeep;
      destruct (Rlt_dec db_floor _) as [Hgt |]; try discriminate;
      unfold db_floor in *; lra.
Qed.

Lemma floor_not_a_lower_bound_witness :
  rms_to_db (1 / 10 ^ 12) < -200
  /\ forall ch results dbs,
      measured_column ch results = Ok dbs ->
      ~ In (rms_to_db (1 / 10 ^ 12)) dbs /\ ~ In (-200) dbs.
Proof.
  destruct floor_not_a_lower_bound as (_ & Hb & Hiff & _ & Hcol).
  assert (Hp : 0 < 1 / 10 ^ 12) by (apply Rdiv_lt_0_compat; lra).
  assert (Hlt : 1 / 10 ^ 12 < silence_threshold).
  { apply Rlt_trans with (7 / 10 ^ 11); [| apply Hb].
    apply Rmult_lt_reg_r with (10 ^ 12); [lra |].
    replace (1 / 10 ^ 12 * 10 ^ 12) with 1 by (field; lra).
    replace (7 / 10 ^ 11 * 10 ^ 12) with 70 by (field; lra). lra. }
  split; [apply Hiff; assumption |].
  intros ch results dbs H. exact (Hcol _ ch results dbs Hp Hlt H).
Defined.

(* ================================================================= *)
(** * The measurement window *)

Lemma parse_args_keeps_trim {E : Externals} (t0 t : PluginTester)
      (args : Namespace) (w w' : World) :
  parse_args t0 args w = (Ok t, w') ->
  trim_start t = trim_start t0 /\ trim_len t = trim_len t0
  /\ duration t = arg_duration args.
Proof.
  unfold parse_args, bind.
  destruct (negb (path_exists _ w)); simpl; [discriminate |].
  intros H. injection H as <- _. simpl. repeat split.
Qed.

(** C3.  For a positive frequency the signal lasts
    [min (max (100 * (1 / frequency)) 1) 10] seconds, which is between 1
    and 10; it is 10 at 0.1 Hz and 1 at 1000 Hz.  When the base duration
    is not zero, the window of a tester that has the trim values of
    [__init__] (0.2 and 0.6, which [parse_args] keeps) starts at
    [trim_start * adaptive_duration / duration] and is
    [trim_len * adaptive_duration / duration] long. *)
Theorem window_planner (t : PluginTester) (frequency : R) :
  0 < frequency ->
  let ad := Rmin (Rmax (100 * (1 / frequency)) 1) 10 in
  adaptive_duration frequency = Ok ad
  /\ 1 <= ad <= 10
  /\ adaptive_duration (1 / 10) = Ok 10
  /\ adaptive_duration 1000 = Ok 1
  /\ (duration t <> 0 ->
      trim_start t = trim_start init -> trim_len t = trim_len init ->
      window t frequency
      = Ok (ad, trim_start t * ad / duration t, trim_len t * ad / duration t)).
Proof.
  intros Hf ad.
  split; [apply adaptive_duration_eq; lra |].
  split; [apply adaptive_duration_range |].
  split; [| split].
  - rewrite adaptive_duration_eq by lra. f_equal.
    replace (100 * (1 / (1 / 10))) with 1000 by field.
    unfold Rmin, Rmax.
    destruct (Rle_dec 1000 1); [lra |].
    destruct (Rle_dec 1000 10); [lra | reflexivity].
  - rewrite adaptive_duration_eq by lra. f_equal.
    replace (100 * (1 / 1000)) with (1 / 10) by field.
    unfold Rmin, Rmax.
    destruct (Rle_dec (1 / 10) 1); [| lra].
    destruct (Rle_dec 1 10); [reflexivity | lra].
  - intros Hd Hs Hl. rewrite window_eq by (lra || exact Hd).
    rewrite Hs, Hl. reflexivity.
Qed.

(** The window at 440 Hz of the tester that [parse_args] makes of the
    default arguments. *)
Lemma window_planner_witness :
  let E := Bench.externals 0 Bench.stat_report in
  exists t w',
    @parse_args E init (Bench.arguments 5 50000 12) Bench.start = (Ok t, w')
    /\ let ad := Rmin (Rmax (100 * (1 / 440)) 1) 10 in
       adaptive_duration 440 = Ok ad
       /\ 1 <= ad <= 10
       /\ window t 440
          = Ok (ad, trim_start t * ad / duration t,
                trim_len t * ad / duration t).
Proof.
  intros E.
  destruct (@parse_args E init (Bench.arguments 5 50000 12) Bench.start)
    as [[t | e] w'] eqn:Hp; [| discriminate].
  exists t, w'. split; [reflexivity |].
  destruct (parse_args_keeps_trim _ _ _ _ _ Hp) as (Hs & Hl & Hd).
  assert (Hf : 0 < 440) by lra.
  destruct (window_planner t 440 Hf) as (Had & Hr & _ & _ & Hw).
  split; [exact Had |]. split; [exact Hr |].
  apply Hw; [rewrite Hd; simpl; lra | exact Hs | exact Hl].
Defined.

(* ================================================================= *)
(** * The RMS amplitude of a channel *)

Section Extraction.
Context {E : Externals}.

Lemma parse_rms_first (lines : list string) :
  parse_rms lines
  = match first_rms_field lines with
    | None => Ok None
    | Some word =>
        match float_of_str word with
        | Some rms => Ok (Some rms)
        | None => Raise ValueError
        end
    end.
Proof.
  induction lines as [| line rest IH]; simpl; [reflexivity |].
  destruct (contains "RMS" line && contains "amplitude:" line);
    [| exact IH].
  destruct (amplitude_search line); [reflexivity | exact IH].
Qed.

Lemma measure_channels_read (tmp_file : string) (channels : list nat) :
  forall (acc : list R) (w : World),
    measure_channels tmp_file channels acc w
    = let (r, w') := read_channels tmp_file channels w in
      (match r with
       | Ok values => Ok (acc ++ values)
       | Raise e => Raise e
       end, w').
Proof.
  induction channels as [| ch rest IH]; intros acc w; simpl.
  - rewrite app_nil_r. reflexivity.
  - unfold bind at 1, call at 1, stat_report.
    destruct (subprocess_run _ w) as [res w1].
    unfold lift, channel_rms. rewrite parse_rms_first. unfold bind.
    destruct (first_rms_field _) as [word |].
    + destruct (float_of_str word) as [rms |]; cbn beta iota;
        [| reflexivity].
      rewrite IH. destruct (read_channels tmp_file rest w1) as [[l | e] w2];
        [rewrite <- app_assoc |]; reflexivity.
    + cbn beta iota.
      rewrite IH. destruct (read_channels tmp_file rest w1) as [[l | e] w2];
        [rewrite <- app_assoc |]; reflexivity.
Qed.

Lemma read_channels_raises (tmp_file : string) (channels : list nat) :
  forall (w w' : World) (e : exn),
    read_channels tmp_file channels w = (Raise e, w') -> e = ValueError.
Proof.
  induction channels as [| ch rest IH]; intros w w' e H; simpl in H;
    [discriminate |].
  destruct (stat_report tmp_file ch w) as [report w1].
  unfold channel_rms in H.
  destruct (first_rms_field _) as [word |].
  - destruct (float_of_str word).
    + destruct (read_channels tmp_file rest w1) as [[l | e'] w2] eqn:Hr;
        [discriminate |].
      injection H as <- _. eapply IH; exact Hr.
    + injection H as <- _. reflexivity.
  - destruct (read_channels tmp_file rest w1) as [[l | e'] w2] eqn:Hr;
      [discriminate |].
    injection H as <- _. eapply IH; exact Hr.
Qed.
End Extraction.

Lemma read_channels_length {E : Externals} (tmp_file : string)
      (channels : list nat) :
  forall (w w' : World) (values : list R),
    read_channels tmp_file channels w = (Ok values, w') ->
    List.length values = List.length channels.
Proof.
  induction channels as [| ch rest IH]; intros w w' values H; simpl in H.
  - injection H as <- _. reflexivity.
  - destruct (stat_report tmp_file ch w) as [report w1].
    destruct (channel_rms report) as [rms | e]; [| discriminate].
    destruct (read_channels tmp_file rest w1) as [[l | e] w2] eqn:Hr;
      [| discriminate].
    injection H as <- _. simpl. f_equal. eapply IH; exact Hr.
Qed.

(** C8, as stated, fails on the bench when the RMS word of the first
    channel's report is not a number: every tool ends with status 0, the
    word is found, [float] rejects it, and the measurement of the
    frequency fails: [measure_frequency] returns [None]. *)
Lemma unparsable_rms_fails :
  let E := Bench.externals 0 Bench.bad_report in
  first_rms_field (split_on newline Bench.bad_report) = Some "n/a"%string
  /\ float_of_str "n/a"%string = None
  /\ exists w',
      @measure_frequency E (Bench.tester 5 50000 12) 1000 Bench.start
      = (Ok None, w').
Proof.
  intros E. split; [reflexivity |]. split; [reflexivity |].
  destruct (bench_measure_bad 5 50000 12 1000 Bench.start) as (w' & H & _);
    [lra |].
  exists w'. exact H.
Qed.

(** C8, amended.  Once the tone has been generated and processed, the
    channels 0 .. [num_outputs - 1] are read in turn from the report of
    [sox ... remix <ch + 1> stat]: a channel whose report has no RMS
    amplitude field counts as 0.0, one whose first field is a number
    counts as that number, and the measurement returns these values.  A
    first field that is not a number ends the measurement: it returns
    [None], as for a failed tool. *)
Theorem rms_extraction {E : Externals} (t : PluginTester) (f : R)
        (w : World) :
  (f <> 0 -> duration t <> 0 ->
   forall tmp_input wa tmp_output wb tmp_file w1 r w2,
     let ad := Rmin (Rmax (100 * (1 / f)) 1) 10 in
     NamedTemporaryFile ".wav" w = (tmp_input, wa) ->
     NamedTemporaryFile ".wav" wa = (tmp_output, wb) ->
     process_signal t f ad (2 / 10 * ad / duration t)
                    (6 / 10 * ad / duration t) tmp_input tmp_output wb
     = (Ok (Some tmp_file), w1) ->
     read_channels tmp_file (seq 0 (num_outputs t)) w1 = (r, w2) ->
     measure_frequency t f w
     = (match r with
        | Ok values => Ok (Some values)
        | Raise _ => Ok None
        end, unlink tmp_output (unlink tmp_input w2))
     /\ (forall values, r = Ok values ->
                        List.length values = num_outputs t))
  /\ (forall report,
        first_rms_field (split_on newline report) = None ->
        channel_rms report = Ok 0)
  /\ (forall report word rms,
        first_rms_field (split_on newline report) = Some word ->
        float_of_str word = Some rms ->
        channel_rms report = Ok rms)
  /\ (forall report word,
        first_rms_field (split_on newline report) = Some word ->
        float_of_str word = None ->
        channel_rms report = Raise ValueError).
Proof.
  split; [| split; [| split]].
  - intros Hf Hd tmp_input wa tmp_output wb tmp_file w1 r w2 ad Hin Hout Hp Hr.
    split.
    + unfold measure_frequency, bind at 1, lift at 1.
      rewrite (window_eq t f Hf Hd). cbv zeta beta iota.
      unfold bind at 1, call at 1. rewrite Hin.
      unfold bind at 1, call at 1. rewrite Hout.
      unfold try_finally, try_except, measure_body, bind at 1.
      fold ad. rewrite Hp.
      unfold bind. rewrite measure_channels_read, Hr.
      destruct r as [values | e]; simpl; [reflexivity |].
      rewrite (read_channels_raises _ _ _ _ _ Hr). reflexivity.
    + intros values ->.
      rewrite (read_channels_length _ _ _ _ _ Hr), length_seq. reflexivity.
  - intros report H. unfold channel_rms. rewrite H. reflexivity.
  - intros report word rms H Hw. unfold channel_rms. rewrite H, Hw.
    reflexivity.
  - intros report word H Hw. unfold channel_rms. rewrite H, Hw. reflexivity.
Qed.

(** The bench with a readable report, and the three kinds of report. *)
Lemma rms_extraction_witness :
  let E := Bench.externals 0 Bench.stat_report in
  (exists w',
      @measure_frequency E (Bench.tester 5 50000 12) 1000 Bench.start
      = (Ok (Some [1 / 2; 1 / 2]), w'))
  /\ @channel_rms E "no statistics" = Ok 0
  /\ @channel_rms E Bench.stat_report = Ok (1 / 2)
  /\ @channel_rms E Bench.bad_report = Raise ValueError.
Proof.
  intros E.
  pose proof (@rms_extraction E (Bench.tester 5 50000 12) 1000 Bench.start)
    as (Hm & H0 & Hv & He).
  split; [| split; [| split]].
  - assert (Hf : 1000 <> 0) by lra.
    assert (Hd : duration (Bench.tester 5 50000 12) <> 0) by (simpl; lra).
    edestruct (Hm Hf Hd) as [Heq _].
    + reflexivity.
    + reflexivity.
    + run_bench. reflexivity.
    + run_bench. reflexivity.
    + eexists. exact Heq.
  - apply H0. reflexivity.
  - apply Hv with (word := "0.5"%string); reflexivity.
  - apply He with (word := "n/a"%string); reflexivity.
Defined.

(* ================================================================= *)
(** * Text facts *)

Lemma all_chars_app (p : ascii -> bool) (a b : string) :
  all_chars p (a ++ b) = all_chars p a && all_chars p b.
Proof.
  induction a as [| c a IH]; simpl; [reflexivity |].
  rewrite IH, andb_assoc. reflexivity.
Qed.

Lemma all_chars_weaken (p q : ascii -> bool) (s : string) :
  (forall c, p c = true -> q c = true) ->
  all_chars p s = true -> all_chars q s = true.
Proof.
  intros Hpq. induction s as [| c s IH]; simpl; [reflexivity |].
  intros H. apply andb_true_iff in H. destruct H as [Hc Hs].
  rewrite (Hpq c Hc), (IH Hs). reflexivity.
Qed.

Lemma all_chars_lacks (p : ascii -> bool) (c : ascii) (s : string) :
  p c = false -> all_chars p s = true -> lacks c s = true.
Proof.
  intros Hc. apply all_chars_weaken. intros d Hd.
  destruct (Ascii.eqb_spec d c) as [-> |]; [congruence | reflexivity].
Qed.

Lemma split_on_lacks (c : ascii) (s : string) :
  lacks c s = true -> split_on c s = [s].
Proof.
  unfold lacks. induction s as [| d s IH]; simpl; [reflexivity |].
  intros H. apply andb_true_iff in H. destruct H as [Hd Hs].
  apply negb_true_iff in Hd. rewrite Hd, (IH Hs). reflexivity.
Qed.

Lemma split_on_app (c : ascii) (a b : string) :
  lacks c a = true ->
  split_on c (a ++ String c b) = a :: split_on c b.
Proof.
  unfold lacks. induction a as [| d a IH]; simpl.
  - intros _. rewrite Ascii.eqb_refl. reflexivity.
  - intros H. apply andb_true_iff in H. destruct H as [Hd Ha].
    apply negb_true_iff in Hd. rewrite Hd, (IH Ha). reflexivity.
Qed.

Lemma append_assoc (a b c : string) : ((a ++ b) ++ c = a ++ (b ++ c))%string.
Proof. induction a as [| d a IH]; simpl; [reflexivity | rewrite IH; reflexivity]. Qed.

Lemma append_nil_r (a : string) : (a ++ "" = a)%string.
Proof. induction a as [| d a IH]; simpl; [reflexivity | rewrite IH; reflexivity]. Qed.

Lemma length_append (a b : string) :
  String.length (a ++ b) = (String.length a + String.length b)%nat.
Proof. induction a as [| d a IH]; simpl; [reflexivity | rewrite IH; reflexivity]. Qed.

(** A loop that appends one piece per element builds the concatenation of
    the pieces. *)
Lemma fold_left_append {A : Type} (g : A -> string) (l : list A) :
  forall init : string,
    fold_left (fun acc x => (acc ++ g x)%string) l init
    = (init ++ String.concat "" (map g l))%string.
Proof.
  induction l as [| x l IH]; intros init; simpl.
  - rewrite append_nil_r. reflexivity.
  - rewrite IH, append_assoc. f_equal.
    destruct (map g l) eqn:Hm; simpl.
    + rewrite append_nil_r. reflexivity.
    + reflexivity.
Qed.

Lemma concat_cons (x : string) (l : list string) :
  String.concat "" (x :: l) = (x ++ String.concat "" l)%string.
Proof.
  destruct l as [| y l]; simpl; [rewrite append_nil_r |]; reflexivity.
Qed.

(** Rows that are each followed by the separator split back into the
    rows, and an empty piece after the last separator. *)
Lemma split_rows (c : ascii) (rows : list string) :
  Forall (fun s => lacks c s = true) rows ->
  split_on c (String.concat "" (map (fun r => r ++ String c "")%string rows))
  = (rows ++ [""%string])%list.
Proof.
  induction 1 as [| r rows Hr Hrows IH].
  - reflexivity.
  - rewrite map_cons, concat_cons, append_assoc. simpl.
    rewrite (split_on_app c r _ Hr), IH. reflexivity.
Qed.

(** Fields that are each preceded by the separator, behind a first one,
    split back into the fields. *)
Lemma split_fields (c : ascii) (first : string) (rest : list string) :
  lacks c first = true ->
  Forall (fun s => lacks c s = true) rest ->
  split_on c (first ++ String.concat "" (map (String c) rest))
  = first :: rest.
Proof.
  intros Hf Hrest. revert first Hf.
  induction Hrest as [| x rest Hx Hrest IH]; intros first Hf.
  - simpl. rewrite append_nil_r. apply split_on_lacks; exact Hf.
  - rewrite map_cons, concat_cons. simpl.
    rewrite (split_on_app c first _ Hf), (IH x Hx). reflexivity.
Qed.

Lemma digit_char_is_digit (k : Z) :
  (0 <= k < 10)%Z -> is_digit (digit_char k) = true.
Proof.
  intros H.
  assert (Hk : k = 0%Z \/ k = 1%Z \/ k = 2%Z \/ k = 3%Z \/ k = 4%Z
               \/ k = 5%Z \/ k = 6%Z \/ k = 7%Z \/ k = 8%Z \/ k = 9%Z) by lia.
  repeat (destruct Hk as [-> | Hk]; [vm_compute; reflexivity |]).
  subst k; vm_compute; reflexivity.
Qed.

Lemma decimals_digits (width : nat) :
  forall n : Z, all_chars is_digit (decimals width n) = true.
Proof.
  induction width as [| width IH]; intros n; [reflexivity |].
  cbn [decimals].
  rewrite all_chars_app, IH. cbn [all_chars].
  rewrite digit_char_is_digit; [reflexivity |].
  apply Z.mod_pos_bound; lia.
Qed.

Lemma decimals_length (width : nat) :
  forall n : Z, String.length (decimals width n) = width.
Proof.
  induction width as [| width IH]; intros n; [reflexivity |].
  cbn [decimals].
  rewrite length_append, IH. simpl. lia.
Qed.
Lemma string_of_uint_digits (d : Decimal.uint) :
  all_chars is_digit (NilEmpty.string_of_uint d) = true.
Proof. induction d; simpl; try reflexivity; exact IHd. Qed.

Lemma str_uint_digits (d : Decimal.uint) :
  all_chars is_digit (NilZero.string_of_uint d) = true.
Proof.
  unfold NilZero.string_of_uint.
  destruct d; try reflexivity; apply string_of_uint_digits.
Qed.

Lemma str_nat_digits (n : nat) : all_chars is_digit (str_nat n) = true.
Proof. apply str_uint_digits. Qed.

Lemma str_Z_digits (n : Z) : all_chars is_digit (str_Z n) = true.
Proof. apply str_uint_digits. Qed.

Lemma digits_numeric (s : string) :
  all_chars is_digit s = true -> all_chars numeric_char s = true.
Proof.
  apply all_chars_weaken. intros c H. unfold numeric_char.
  rewrite H. reflexivity.
Qed.

(** The shape of a number formatted with at least one decimal: an
    optional sign, the digits of the integer part, a point and exactly
    [digits] digits. *)
Lemma format_fixed_shape (digits : nat) (x : R) :
  exists sign int frac : string,
    format_fixed (S digits) x = (sign ++ int ++ "." ++ frac)%string
    /\ (sign = ""%string \/ sign = "-"%string)
    /\ (sign = "-"%string <-> x < 0)
    /\ all_chars is_digit int = true
    /\ all_chars is_digit frac = true
    /\ String.length frac = S digits.
Proof.
  unfold format_fixed.
  eexists _, _, _. split; [reflexivity |].
  split; [destruct (Rltb x 0); auto |].
  split.
  - unfold Rltb. destruct (Rlt_dec x 0); split; intros H;
      try assumption; try reflexivity; try discriminate; contradiction.
  - split; [apply str_Z_digits |].
    split; [apply decimals_digits | apply decimals_length].
Qed.

Lemma format_fixed_numeric (digits : nat) (x : R) :
  all_chars numeric_char (format_fixed digits x) = true.
Proof.
  unfold format_fixed. rewrite !all_chars_app.
  rewrite (digits_numeric _ (str_Z_digits _)).
  assert (Hs : all_chars numeric_char (if Rltb x 0 then "-" else "")%string
               = true) by (destruct (Rltb x 0); reflexivity).
  rewrite Hs. destruct digits as [| digits]; [reflexivity |].
  cbn [all_chars append]. rewrite andb_true_l.
  change (numeric_char ".") with true. cbn [andb].
  apply digits_numeric, decimals_digits.
Qed.

Lemma lacks_app (c : ascii) (a b : string) :
  lacks c (a ++ b) = lacks c a && lacks c b.
Proof. apply all_chars_app. Qed.

Lemma lacks_concat_map {A : Type} (c : ascii) (g : A -> string) (l : list A) :
  (forall x, lacks c (g x) = true) ->
  lacks c (String.concat "" (map g l)) = true.
Proof.
  intros Hg. induction l as [| x l IH]; [reflexivity |].
  rewrite map_cons, concat_cons, lacks_app, Hg, IH. reflexivity.
Qed.

Lemma format_fixed_lacks (c : ascii) (digits : nat) (x : R) :
  numeric_char c = false -> lacks c (format_fixed digits x) = true.
Proof.
  intros Hc. apply (all_chars_lacks numeric_char); [exact Hc |].
  apply format_fixed_numeric.
Qed.

Lemma str_nat_lacks (c : ascii) (n : nat) :
  is_digit c = false -> lacks c (str_nat n) = true.
Proof.
  intros Hc. apply (all_chars_lacks is_digit); [exact Hc |].
  apply str_nat_digits.
Qed.

Lemma header_line_eq (t : PluginTester) :
  header_line t
  = ("Frequency"
     ++ String.concat ""
          (map (String tab)
               (map (fun ch => "Channel_" ++ str_nat ch)
                    (seq 0 (num_outputs t)))))%string.
Proof.
  unfold header_line.
  rewrite (fold_left_append
             (fun ch => String tab ("Channel_" ++ str_nat ch))).
  rewrite map_map. reflexivity.
Qed.

Lemma data_line_eq (freq : R) (db_values : list R) :
  data_line (freq, db_values)
  = (format_fixed 3 freq
     ++ String.concat "" (map (String tab) (map (format_fixed 2) db_values)))%string.
Proof.
  unfold data_line.
  rewrite (fold_left_append (fun db => String tab (format_fixed 2 db))).
  rewrite map_map. reflexivity.
Qed.

Lemma table_text_eq (t : PluginTester) (results : list record) :
  table_text t results
  = (header_line t
     ++ String newline
          (String.concat ""
             (map (fun r => r ++ String newline "")
                  (map data_line results))))%string.
Proof.
  unfold table_text.
  rewrite (fold_left_append (fun r => (data_line r ++ String newline "")%string)).
  rewrite map_map, append_assoc. reflexivity.
Qed.

Lemma header_line_one_line (t : PluginTester) :
  lacks newline (header_line t) = true.
Proof.
  rewrite header_line_eq, lacks_app, map_map.
  rewrite lacks_concat_map; [reflexivity |].
  intros ch. change (String tab ("Channel_" ++ str_nat ch))
    with (String tab "Channel_" ++ str_nat ch)%string.
  rewrite lacks_app, str_nat_lacks by reflexivity. reflexivity.
Qed.

Lemma data_line_one_line (r : record) : lacks newline (data_line r) = true.
Proof.
  destruct r as [freq db_values].
  rewrite data_line_eq, lacks_app, map_map.
  rewrite format_fixed_lacks by reflexivity.
  rewrite lacks_concat_map; [reflexivity |].
  intros db. change (String tab (format_fixed 2 db))
    with (String tab "" ++ format_fixed 2 db)%string.
  rewrite lacks_app, format_fixed_lacks by reflexivity. reflexivity.
Qed.

(* ================================================================= *)
(** * The result table *)



(* ================================================================= *)
(** * Formatting at work *)

Lemma split_real (r f : R) (z : Z) :
  r = IZR z + f -> 0 <= f < 1 -> Int_part r = z /\ frac_part r = f.
Proof.
  intros Hr Hf.
  assert (Hz : z = Int_part r) by (apply Int_part_spec; lra).
  split; [symmetry; exact Hz |].
  unfold frac_part. rewrite <- Hz. lra.
Qed.

Lemma round_half_even_down (r f : R) (z : Z) :
  r = IZR z + f -> 0 <= f < 1 / 2 -> round_half_even r = z.
Proof.
  intros Hr Hf. unfold round_half_even.
  destruct (split_real r f z Hr) as [-> ->]; [lra |].
  rewrite Rltb_true by lra. reflexivity.
Qed.

Lemma round_half_even_up (r f : R) (z : Z) :
  r = IZR z + f -> 1 / 2 < f < 1 -> round_half_even r = (z + 1)%Z.
Proof.
  intros Hr Hf. unfold round_half_even.
  destruct (split_real r f z Hr) as [-> ->]; [lra |].
  rewrite Rltb_false by lra. rewrite Rltb_true by lra. reflexivity.
Qed.

Lemma round_half_even_tie (r : R) (z : Z) :
  r = IZR z + 1 / 2 ->
  round_half_even r = if Z.even z then z else (z + 1)%Z.
Proof.
  intros Hr. unfold round_half_even.
  destruct (split_real r (1 / 2) z Hr) as [-> ->]; [lra |].
  rewrite !Rltb_false by lra. reflexivity.
Qed.

Example format_floor : format_fixed 2 (-200) = "-200.00"%string.
Proof.
  unfold format_fixed.
  rewrite (round_half_even_down _ 0 20000).
  - rewrite Rltb_true by lra. vm_compute. reflexivity.
  - rewrite Rabs_left by lra. simpl. lra.
  - lra.
Qed.

Example format_frequency : format_fixed 3 100 = "100.000"%string.
Proof.
  unfold format_fixed.
  rewrite (round_half_even_down _ 0 100000).
  - rewrite Rltb_false by lra. vm_compute. reflexivity.
  - rewrite Rabs_right by lra. simpl. lra.
  - lra.
Qed.

Example format_offset : format_fixed 2 db_offset = "3.01"%string.
Proof.
  unfold format_fixed, db_offset.
  rewrite (round_half_even_down _ (3 / 100) 301).
  - rewrite Rltb_false by lra. vm_compute. reflexivity.
  - rewrite Rabs_right by lra. simpl. lra.
  - lra.
Qed.

Example format_tie : format_fixed 3 (625 / 10000) = "0.062"%string.
Proof.
  unfold format_fixed.
  rewrite (round_half_even_tie _ 62).
  - rewrite Rltb_false by lra. vm_compute. reflexivity.
  - rewrite Rabs_right by lra. simpl. lra.
Qed.

Example format_up : format_fixed 2 (-1996 / 1000) = "-2.00"%string.
Proof.
  unfold format_fixed.
  rewrite (round_half_even_up _ (6 / 10) 199).
  - rewrite Rltb_true by lra. vm_compute. reflexivity.
  - rewrite Rabs_left by lra. simpl. lra.
  - lra.
Qed.

(** The table of a sweep with one failed measurement. *)
Example table_text_bench :
  table_text (Bench.tester 100 400 1) [(100, [-200; -200])]
  = (Bench.line ("Frequency" ++ String tab "Channel_0"
                 ++ String tab "Channel_1")
     ++ Bench.line ("100.000" ++ String tab "-200.00"
                    ++ String tab "-200.00"))%string.
Proof.
  unfold table_text, data_line, header_line.
  cbn [fold_left seq num_outputs Bench.tester].
  rewrite format_floor, format_frequency. vm_compute. reflexivity.
Qed.

(* ================================================================= *)
(** * The path of the plot *)

Lemma prefix_append (a b : string) : prefix a (a ++ b) = true.
Proof.
  induction a as [| c a IH]; simpl; [destruct b; reflexivity |].
  destruct (ascii_dec c c) as [_ | Hne]; [exact IH | contradiction].
Qed.

Lemma replace_from_skip (old new a b : string) :
  replace_from old new (String.length a) (a ++ b) = replace_from old new 0 b.
Proof. induction a as [| c a IH]; simpl; [reflexivity | exact IH]. Qed.

(** An occurrence at the head is replaced and the scan goes on behind
    it. *)
Lemma replace_here (c : ascii) (old new b : string) :
  replace (String c old) new (String c old ++ b)
  = (new ++ replace (String c old) new b)%string.
Proof.
  unfold replace.
  change (String c old ++ b)%string with (String c (old ++ b)).
  cbn [replace_from].
  change (String c (old ++ b)) with (String c old ++ b)%string.
  rewrite prefix_append.
  replace (String.length (String c old) - 1)%nat with (String.length old)
    by (cbn [String.length]; lia).
  rewrite replace_from_skip. reflexivity.
Qed.

(** A character that does not start an occurrence is kept. *)
Lemma replace_next (c : ascii) (old new s : string) :
  prefix old (String c s) = false ->
  replace old new (String c s) = String c (replace old new s).
Proof. intros H. unfold replace. cbn [replace_from]. rewrite H. reflexivity. Qed.

(** A text without any occurrence is left as it is. *)
Lemma replace_absent (old new s : string) :
  contains old s = false -> replace old new s = s.
Proof.
  induction s as [| c s IH]; intros H; [reflexivity |].
  cbn [contains] in H.
  destruct (prefix old (String c s)) eqn:Hp; [discriminate |].
  rewrite replace_next by exact Hp. rewrite IH by exact H. reflexivity.
Qed.



Example plot_file_default :
  plot_file "riaa_response.txt" = "riaa_response.png"%string.
Proof. reflexivity. Qed.

Example plot_file_twice :
  plot_file "sweep.txt/riaa.txt" = "sweep.png/riaa.png"%string.
Proof. reflexivity. Qed.

(* ================================================================= *)
(** * Splitting and the parameter list *)

Lemma split_on_nonempty (c : ascii) (s : string) : split_on c s <> [].
Proof.
  destruct s as [| d s]; simpl; [discriminate |].
  destruct (Ascii.eqb d c); [discriminate |].
  destruct (split_on c s); discriminate.
Qed.

Lemma split_on_pieces (c : ascii) (s : string) :
  Forall (fun piece => lacks c piece = true) (split_on c s).
Proof.
  induction s as [| d s IH]; simpl.
  - constructor; [reflexivity | constructor].
  - destruct (Ascii.eqb d c) eqn:Hd.
    + constructor; [reflexivity | exact IH].
    + destruct (split_on c s) as [| field fields].
      * constructor; [| constructor].
        unfold lacks; simpl. rewrite Hd. reflexivity.
      * inversion IH as [| x l Hx Hl]; subst.
        constructor; [| exact Hl].
        unfold lacks in *; simpl. rewrite Hd, Hx. reflexivity.
Qed.

(** Joining the pieces with the separator gives the text back. *)
Lemma join_split_on (c : ascii) (s : string) :
  String.concat (String c "") (split_on c s) = s.
Proof.
  induction s as [| d s IH]; [reflexivity |].
  cbn [split_on].
  pose proof (split_on_nonempty c s) as Hn.
  destruct (split_on c s) as [| field fields]; [contradiction |].
  destruct (Ascii.eqb d c) eqn:Hd.
  - apply Ascii.eqb_eq in Hd. subst d.
    change (String.concat (String c "") ("" :: field :: fields)%string)
      with (String c (String.concat (String c "") (field :: fields))).
    rewrite IH. reflexivity.
  - destruct fields as [| f fields].
    + cbn [String.concat] in IH |- *. rewrite IH. reflexivity.
    + change (String.concat (String c "") (String d field :: f :: fields))
        with (String d (String.concat (String c "") (field :: f :: fields))).
      rewrite IH. reflexivity.
Qed.

Lemma concat_app_nonempty (sep : string) (l1 l2 : list string) :
  l1 <> [] -> l2 <> [] ->
  String.concat sep (l1 ++ l2)
  = (String.concat sep l1 ++ sep ++ String.concat sep l2)%string.
Proof.
  intros H1 H2. induction l1 as [| x l1 IH]; [contradiction |].
  destruct l1 as [| y l1].
  - destruct l2 as [| z l2]; [contradiction |]. reflexivity.
  - change ((x :: y :: l1) ++ l2)%list with (x :: (y :: l1) ++ l2)%list.
    change (String.concat sep (x :: (y :: l1) ++ l2))
      with (x ++ sep ++ String.concat sep ((y :: l1) ++ l2))%string.
    rewrite IH by discriminate.
    change (String.concat sep (x :: y :: l1))
      with (x ++ sep ++ String.concat sep (y :: l1))%string.
    rewrite !append_assoc. reflexivity.
Qed.

Lemma contains_char (c : ascii) (s : string) :
  contains (String c "") s = negb (lacks c s).
Proof.
  unfold lacks. induction s as [| d s IH]; [reflexivity |].
  cbn [contains prefix all_chars].
  destruct (ascii_dec c d) as [<- | Hne].
  - rewrite Ascii.eqb_refl. destruct s; reflexivity.
  - rewrite IH. destruct (Ascii.eqb_spec d c) as [-> |]; [contradiction |].
    reflexivity.
Qed.

Lemma flat_map_split_nonempty (c : ascii) (l : list string) :
  l <> [] -> flat_map (split_on c) l <> [].
Proof.
  destruct l as [| p l]; [contradiction |]. intros _. simpl.
  pose proof (split_on_nonempty c p).
  destruct (split_on c p); [contradiction | discriminate].
Qed.

Lemma join_flat_map_split (c : ascii) (l : list string) :
  String.concat (String c "") (flat_map (split_on c) l)
  = String.concat (String c "") l.
Proof.
  induction l as [| p l IH]; [reflexivity |].
  cbn [flat_map]. destruct l as [| q l].
  - cbn [flat_map]. rewrite app_nil_r. apply join_split_on.
  - rewrite concat_app_nonempty.
    + rewrite join_split_on, IH. reflexivity.
    + apply split_on_nonempty.
    + apply flat_map_split_nonempty. discriminate.
Qed.

(** X1.  The parameter list that [parse_args] builds is the list of the
    [--params] words with every word cut at its commas: no parameter
    contains a comma, and joined with commas the parameters read as the
    words joined with commas, so nothing is lost or reordered. *)
Theorem parse_args_parameters {E : Externals} (t0 t : PluginTester)
        (args : Namespace) (w w' : World) :
  parse_args t0 args w = (Ok t, w') ->
  parameters t = flat_map (split_on ",") (arg_params args)
  /\ Forall (fun p => contains "," p = false) (parameters t)
  /\ String.concat "," (parameters t) = String.concat "," (arg_params args).
Proof.
  unfold parse_args, bind.
  destruct (negb (path_exists _ w)); simpl; [discriminate |].
  intros H. injection H as <- _. cbn [parameters].
  assert (Hfm : flat_map
                  (fun p => if contains "," p then split_on "," p else [p])
                  (arg_params args)
                = flat_map (split_on ",") (arg_params args)).
  { induction (arg_params args) as [| p l IH]; [reflexivity |].
    cbn [flat_map]. rewrite IH. f_equal.
    destruct (contains "," p) eqn:Hc; [reflexivity |].
    rewrite contains_char in Hc. apply negb_false_iff in Hc.
    symmetry. apply split_on_lacks; exact Hc. }
  rewrite Hfm. split; [reflexivity |]. split.
  - apply Forall_forall. intros p Hp. apply in_flat_map in Hp.
    destruct Hp as (q & _ & Hq).
    pose proof (split_on_pieces "," q) as Hall.
    rewrite Forall_forall in Hall. specialize (Hall p Hq).
    rewrite contains_char, Hall. reflexivity.
  - apply join_flat_map_split.
Qed.

Lemma parse_args_parameters_witness :
  let E := Bench.externals 0 Bench.stat_report in
  let args := {| arg_plugin := "riaa"; arg_params := ["1,1"; "0"]%string;
                 arg_output := None; arg_f_min := 5; arg_f_max := 50000;
                 arg_steps := 12; arg_duration := 1; arg_y_min := None;
                 arg_y_max := None; arg_no_plot := false |} in
  exists t w',
    @parse_args E init args Bench.start = (Ok t, w')
    /\ parameters t = ["1"; "1"; "0"]%string
    /\ Forall (fun p => contains "," p = false) (parameters t)
    /\ String.concat "," (parameters t) = "1,1,0"%string.
Proof.
  intros E args.
  destruct (@parse_args E init args Bench.start) as [[t | e] w'] eqn:Hp;
    [| discriminate].
  destruct (@parse_args_parameters E init t args Bench.start w' Hp)
    as (Hpar & Hno & Hjoin).
  exists t, w'. split; [reflexivity |].
  split; [rewrite Hpar; reflexivity |].
  split; [exact Hno |]. rewrite Hjoin. reflexivity.
Defined.

(* ================================================================= *)
(** * More on the path of the plot *)

Lemma prefix_split (a : string) :
  forall s, prefix a s = true -> exists rest, s = (a ++ rest)%string.
Proof.
  induction a as [| c a IH]; intros s H.
  - exists s. reflexivity.
  - destruct s as [| d s]; [discriminate |]. cbn [prefix] in H.
    destruct (ascii_dec c d) as [<- |]; [| discriminate].
    destruct (IH s H) as [rest ->]. exists rest. reflexivity.
Qed.

Lemma contains_prefix (sub s : string) :
  prefix sub s = true -> contains sub s = true.
Proof. intros H. destruct s; cbn [contains]; rewrite H; reflexivity. Qed.

Lemma contains_append (sub a b : string) :
  contains sub (a ++ sub ++ b) = true.
Proof.
  induction a as [| c a IH].
  - change ("" ++ sub ++ b)%string with (sub ++ b)%string.
    apply contains_prefix, prefix_append.
  - cbn [append contains]. rewrite IH.
    destruct (prefix sub _); reflexivity.
Qed.

(** How [plot_file] treats the head of a path. *)
Lemma plot_file_cases (s : string) :
  (s = ""%string /\ plot_file s = ""%string)
  \/ (exists rest, s = (".txt" ++ rest)%string
                   /\ plot_file s = (".png" ++ plot_file rest)%string)
  \/ (exists c rest, s = String c rest
                     /\ prefix ".txt" s = false
                     /\ plot_file s = String c (plot_file rest)).
Proof.
  destruct s as [| c s]; [left; split; reflexivity | right].
  destruct (prefix ".txt" (String c s)) eqn:Hp.
  - left. destruct (prefix_split _ _ Hp) as [rest Hs].
    exists rest. split; [exact Hs |]. rewrite Hs.
    apply (replace_here "." "txt" ".png" rest).
  - right. exists c, s. split; [reflexivity |]. split; [reflexivity |].
    apply replace_next; exact Hp.
Qed.

Lemma plot_file_changes (s : string) :
  contains ".txt" s = true -> plot_file s <> s.
Proof.
  induction s as [| c s IH]; intros Hc; [discriminate |].
  destruct (plot_file_cases (String c s))
    as [[H _] | [(rest & Hs & Hp) | (d & rest & Hs & Hpre & Hp)]].
  - discriminate.
  - rewrite Hp, Hs. discriminate.
  - injection Hs as <- <-. rewrite Hp. intros Heq. injection Heq as Heq.
    cbn [contains] in Hc. rewrite Hpre in Hc. exact (IH Hc Heq).
Qed.

(** Induction on the length of a string. *)
Lemma string_length_ind (P : string -> Prop) :
  (forall s, (forall s', (String.length s' < String.length s)%nat -> P s') -> P s) ->
  forall s, P s.
Proof.
  intros Hstep s.
  assert (H : forall n s', (String.length s' < n)%nat -> P s').
  { induction n as [| n IH]; intros s' Hn; [lia |].
    apply Hstep. intros s'' Hlt. apply IH. lia. }
  apply (H (S (String.length s))). lia.
Qed.

Lemma plot_file_length (s : string) :
  String.length (plot_file s) = String.length s.
Proof.
  induction s as [s IH] using string_length_ind.
  destruct (plot_file_cases s)
    as [[-> ->] | [(rest & -> & ->) | (c & rest & -> & _ & ->)]].
  - reflexivity.
  - rewrite !length_append, IH; [reflexivity |].
    rewrite length_append. simpl. lia.
  - cbn [String.length]. rewrite IH; [reflexivity |]. simpl. lia.
Qed.

(** A copied character at the head of the plot path was at the head of
    the path. *)
Lemma plot_file_head (c : ascii) (s out : string) :
  c <> "."%char ->
  plot_file s = String c out ->
  exists rest, s = String c rest /\ out = plot_file rest.
Proof.
  intros Hc H.
  destruct (plot_file_cases s)
    as [[_ H0] | [(rest & _ & Hp) | (d & rest & Hs & _ & Hp)]].
  - rewrite H0 in H. discriminate.
  - rewrite Hp in H. injection H as H _. symmetry in H. contradiction.
  - rewrite Hp in H. injection H as -> <-. exists rest. split; [exact Hs | reflexivity].
Qed.

Lemma plot_file_clean (s : string) : contains ".txt" (plot_file s) = false.
Proof.
  induction s as [s IH] using string_length_ind.
  destruct (plot_file_cases s)
    as [[-> ->] | [(rest & -> & ->) | (c & rest & -> & Hpre & ->)]].
  - reflexivity.
  - assert (Hr : contains ".txt" (plot_file rest) = false).
    { apply IH. rewrite length_append. simpl. lia. }
    cbn. cbn in Hr. exact Hr.
  - assert (Hr : contains ".txt" (plot_file rest) = false).
    { apply IH. simpl. lia. }
    cbn [contains]. rewrite Hr.
    destruct (prefix ".txt" (String c (plot_file rest))) eqn:Hp;
      [exfalso | reflexivity].
    destruct (prefix_split _ _ Hp) as [out Hout].
    injection Hout as -> Hout.
    destruct (plot_file_head "t" rest _ ltac:(discriminate) Hout)
      as (r1 & -> & H1).
    destruct (plot_file_head "x" r1 _ ltac:(discriminate) (eq_sym H1))
      as (r2 & -> & H2).
    destruct (plot_file_head "t" r2 _ ltac:(discriminate) (eq_sym H2))
      as (r3 & -> & _).
    change (String "." (String "t" (String "x" (String "t" r3))))
      with (".txt" ++ r3)%string in Hpre.
    rewrite prefix_append in Hpre. discriminate.
Qed.

(** X2.  The plot path equals the table path exactly when the table path
    has no [.txt] in it.  The output name that [parse_args] chooses when
    [--output] is missing or empty ends in [.txt], so with it the plot
    never goes to the file of the table. *)
Theorem plot_file_same_iff {E : Externals} (path : string) :
  (plot_file path = path <-> contains ".txt" path = false)
  /\ (forall t0 t args w w',
        match arg_output args with
        | Some (String _ _) => False
        | _ => True
        end ->
        parse_args t0 args w = (Ok t, w') ->
        exists p,
          output_file t = Some p
          /\ p = (arg_plugin args ++ "_response.txt")%string
          /\ plot_file p <> p).
Proof.
  split.
  - split.
    + intros H. destruct (contains ".txt" path) eqn:Hc; [| reflexivity].
      exfalso. exact (plot_file_changes path Hc H).
    + apply replace_absent.
  - intros t0 t args w w' Hout. unfold parse_args, bind.
    destruct (negb (path_exists _ w)); simpl; [discriminate |].
    intros H. injection H as <- _. cbn [output_file].
    eexists. split; [reflexivity |].
    assert (Hp : match arg_output args with
                 | Some (String c s) => String c s
                 | _ => (arg_plugin args ++ "_response.txt")%string
                 end = (arg_plugin args ++ "_response.txt")%string).
    { destruct (arg_output args) as [[| c s] |];
        [reflexivity | contradiction | reflexivity]. }
    split; [exact Hp |]. rewrite Hp.
    apply plot_file_changes.
    change (arg_plugin args ++ "_response.txt")%string
      with (arg_plugin args ++ "_response" ++ ".txt" ++ "")%string.
    rewrite <- append_assoc. apply contains_append.
Qed.

Lemma plot_file_same_iff_witness :
  let E := Bench.externals 0 Bench.stat_report in
  exists t w',
    @parse_args E init (Bench.arguments 5 50000 12) Bench.start = (Ok t, w')
    /\ output_file t = Some "riaa_response.txt"%string
    /\ plot_file "riaa_response.txt" <> "riaa_response.txt"%string.
Proof.
  intros E.
  destruct (@parse_args E init (Bench.arguments 5 50000 12) Bench.start)
    as [[t | e] w'] eqn:Hp; [| discriminate].
  destruct (proj2 (@plot_file_same_iff E ""%string) init t
                  (Bench.arguments 5 50000 12) Bench.start w' I Hp)
    as (p & Hout & Hname & Hdiff).
  exists t, w'. split; [reflexivity |].
  simpl in Hname. subst p. split; assumption.
Defined.

(** X3.  The plot path has the length of the table path and no [.txt]
    left in it; deriving a plot path from a plot path changes nothing. *)
Theorem plot_file_shape (path : string) :
  String.length (plot_file path) = String.length path
  /\ contains ".txt" (plot_file path) = false
  /\ plot_file (plot_file path) = plot_file path.
Proof.
  split; [apply plot_file_length |].
  split; [apply plot_file_clean |].
  apply replace_absent, plot_file_clean.
Qed.

(* ================================================================= *)
(** * The analysis of the plugin *)

Lemma analyze_plugin_fails {E : Externals} (t : PluginTester) (w w1 : World)
      (path : string) (res : CompletedProcess) :
  plugin_path t = Some path ->
  subprocess_run ["analyseplugin"; path]%string w = (res, w1) ->
  returncode res <> 0%Z ->
  analyze_plugin t w = (Raise (SystemExit 1), w1).
Proof.
  intros Hp Hrun Hcode. unfold analyze_plugin, argv_word. rewrite Hp.
  cbv [bind ret call raise]. rewrite Hrun.
  apply Z.eqb_neq in Hcode. rewrite Hcode. reflexivity.
Qed.

Lemma analyze_plugin_keeps {E : Externals} (t t' : PluginTester)
      (w w1 : World) :
  analyze_plugin t w = (Ok t', w1) ->
  (f_min t', f_max t', steps_per_oct t', duration t')
  = (f_min t, f_max t, steps_per_oct t, duration t)
  /\ (output_file t', plugin_path t') = (output_file t, plugin_path t).
Proof.
  unfold analyze_plugin, argv_word.
  destruct (plugin_path t) as [path |] eqn:Hp; [| discriminate].
  cbv [bind ret call raise].
  destruct (subprocess_run _ w) as [res w1'].
  destruct (negb (returncode res =? 0)%Z); [discriminate |].
  intros H. injection H as <- _. cbn. split; reflexivity.
Qed.

Lemma configured_fields {E : Externals} (args : Namespace) (t : PluginTester)
      (w w1 : World) :
  bind (parse_args init args) analyze_plugin w = (Ok t, w1) ->
  (f_min t, f_max t, steps_per_oct t, duration t)
  = (arg_f_min args, arg_f_max args, arg_steps args, arg_duration args)
  /\ plugin_path t <> None
  /\ exists path, output_file t = Some path.
Proof.
  unfold bind at 1, parse_args, bind at 1.
  destruct (negb (path_exists _ w)); cbn [raise ret]; [discriminate |].
  intros H. apply analyze_plugin_keeps in H. cbn in H.
  destruct H as [H1 H2]. injection H2 as Ho Hp.
  split; [exact H1 |]. split; [rewrite Hp; discriminate |].
  eexists. exact Ho.
Qed.

Lemma label_kept (lines : list string) :
  Forall (fun line => contains "Plugin Label:" line = false) lines ->
  forall nl : option string * option string,
    snd (fold_left
           (fun nl line =>
              if contains "Plugin Name:" line
              then (Some (field_value line), snd nl)
              else if contains "Plugin Label:" line
                   then (fst nl, Some (field_value line))
                   else nl)
           lines nl)
    = snd nl.
Proof.
  induction 1 as [| line lines Hl Hrest IH]; intros nl; [reflexivity |].
  cbn [fold_left]. rewrite IH, Hl.
  destruct (contains "Plugin Name:" line); reflexivity.
Qed.

(** X4.  [analyze_plugin] runs [analyseplugin] on the plugin path once.
    When the tool ends with a non-zero status the program exits with
    status 1.  Otherwise the tester gets at least one audio input and one
    audio output (the number of [input, audio] and [output, audio] marks
    of the report, or 1 when there is none), the sweep settings stay as
    they were, and the label stays as it was when no line of the report
    has a [Plugin Label:]. *)
Theorem analyze_plugin_outcome {E : Externals} (t : PluginTester)
        (w : World) :
  match plugin_path t with
  | None => analyze_plugin t w = (Raise TypeError, w)
  | Some path =>
      let (res, w1) := subprocess_run ["analyseplugin"; path]%string w in
      if (returncode res =? 0)%Z then
        exists t',
          analyze_plugin t w = (Ok t', w1)
          /\ num_inputs t' = Nat.max 1 (count "input, audio" (stdout res))
          /\ num_outputs t' = Nat.max 1 (count "output, audio" (stdout res))
          /\ (1 <= num_inputs t')%nat /\ (1 <= num_outputs t')%nat
          /\ (f_min t', f_max t', steps_per_oct t', duration t')
             = (f_min t, f_max t, steps_per_oct t, duration t)
          /\ (parameters t', output_file t', plugin_path t')
             = (parameters t, output_file t, plugin_path t)
          /\ (Forall (fun line => contains "Plugin Label:" line = false)
                     (split_on newline (stdout res)) ->
              plugin_label t' = plugin_label t)
      else
        analyze_plugin t w = (Raise (SystemExit 1), w1)
        /\ exit_status (@Raise unit (SystemExit 1)) = 1%Z
  end.
Proof.
  unfold analyze_plugin, argv_word.
  destruct (plugin_path t) as [path |] eqn:Hp; [| reflexivity].
  cbv [bind ret call raise].
  destruct (subprocess_run _ w) as [res w1].
  destruct (returncode res =? 0)%Z; cbn [negb]; [| split; reflexivity].
  eexists. split; [reflexivity |].
  cbn [num_inputs num_outputs f_min f_max steps_per_oct duration parameters
       output_file plugin_path plugin_label].
  assert (Hmax : forall n, (if (n =? 0)%nat then 1%nat else n) = Nat.max 1 n).
  { intros [| n]; [reflexivity |]. cbn. destruct n; reflexivity. }
  rewrite !Hmax.
  split; [reflexivity |]. split; [reflexivity |].
  split; [lia |]. split; [lia |].
  split; [reflexivity |]. split; [reflexivity |].
  intros Hno. apply (label_kept _ Hno (plugin_name t, plugin_label t)).
Qed.

(** An empty report: one input, one output, the label as before. *)
Lemma analyze_plugin_outcome_witness :
  let E := Bench.silent in
  let t := Bench.tester 5 50000 12 in
  exists t' w1,
    @analyze_plugin E t Bench.start = (Ok t', w1)
    /\ num_inputs t' = 1%nat /\ num_outputs t' = 1%nat
    /\ plugin_label t' = Some "riaa"%string
    /\ Bench.commands w1
       = [["analyseplugin"; "/usr/local/lib/ladspa/riaa.so"]%string].
Proof.
  intros E t.
  pose proof (@analyze_plugin_outcome E t Bench.start) as H.
  cbn in H.
  destruct H as (t' & Ht & Hin & Hout & _ & _ & _ & _ & Hlabel).
  eexists t', _. split; [exact Ht |].
  split; [exact Hin |]. split; [exact Hout |].
  split; [| reflexivity].
  apply Hlabel. repeat constructor.
Defined.

(* ================================================================= *)
(** * Runs that end before the sweep *)

(** X5.  A run for a plugin file that does not exist ends with exit
    status 2 in the world it started in: no tool is run, no file is
    written.  A run whose [analyseplugin] ends with a non-zero status
    ends with exit status 1 after that one command, measures nothing and
    writes nothing. *)
Theorem run_configuration_errors {E : Externals} (args : Namespace)
        (fuel : nat) (w : World) (fs : FileStore) :
  let path := ("/usr/local/lib/ladspa/" ++ arg_plugin args ++ ".so")%string in
  (path_exists path w = false ->
   run args fuel w fs = Some (Raise (SystemExit 2), w, fs)
   /\ exit_status (@Raise unit (SystemExit 2)) = 2%Z)
  /\ (path_exists path w = true ->
      forall res w1,
        subprocess_run ["analyseplugin"; path]%string w = (res, w1) ->
        returncode res <> 0%Z ->
        run args fuel w fs = Some (Raise (SystemExit 1), w1, fs)).
Proof.
  intros path. split.
  - intros Hp. split; [| reflexivity].
    unfold run, bind at 1, parse_args, bind. fold path. rewrite Hp.
    reflexivity.
  - intros Hp res w1 Hrun Hcode.
    unfold run, bind at 1, parse_args, bind at 1. fold path. rewrite Hp.
    cbn [negb ret].
    erewrite analyze_plugin_fails; [reflexivity | reflexivity | | exact Hcode].
    exact Hrun.
Qed.

Lemma run_configuration_errors_witness :
  (let E := Bench.failing false in
   @run E (Bench.arguments 5 50000 12) 1 Bench.start (fun _ => None)
   = Some (Raise (SystemExit 2), Bench.start, fun _ => None))
  /\ (let E := Bench.failing true in
      @run E (Bench.arguments 5 50000 12) 1 Bench.start (fun _ => None)
      = Some (Raise (SystemExit 1),
              {| Bench.created := 0;
                 Bench.commands :=
                   [["analyseplugin"; "/usr/local/lib/ladspa/riaa.so"]%string] |},
              fun _ => None)).
Proof.
  split; intros E.
  - apply (proj1 (@run_configuration_errors E (Bench.arguments 5 50000 12)
                    1%nat Bench.start (fun _ => None))).
    reflexivity.
  - apply (proj2 (@run_configuration_errors E (Bench.arguments 5 50000 12)
                    1%nat Bench.start (fun _ => None)) eq_refl
                 {| returncode := 1; stdout := ""; stderr := "" |}).
    + reflexivity.
    + simpl. lia.
Defined.

(* ================================================================= *)
(** * The ways out of a measurement *)

Section MeasurementExits.
Context {E : Externals}.

Lemma measure_frequency_unfold (t : PluginTester) (f : R) (w wa wb : World)
      (tmp_input tmp_output : string) :
  f <> 0 -> duration t <> 0 ->
  NamedTemporaryFile ".wav" w = (tmp_input, wa) ->
  NamedTemporaryFile ".wav" wa = (tmp_output, wb) ->
  let ad := Rmin (Rmax (100 * (1 / f)) 1) 10 in
  measure_frequency t f w
  = let (r, w2) :=
      try_except
        (measure_body t f ad (2 / 10 * ad / duration t)
                      (6 / 10 * ad / duration t) tmp_input tmp_output)
        caught (fun _ => ret None) wb in
    (r, unlink tmp_output (unlink tmp_input w2)).
Proof.
  intros Hf Hd Hin Hout ad.
  unfold measure_frequency, bind at 1, lift at 1.
  rewrite (window_eq t f Hf Hd). cbv zeta beta iota.
  unfold bind at 1, call at 1. rewrite Hin.
  unfold bind at 1, call at 1. rewrite Hout.
  unfold try_finally. reflexivity.
Qed.

Lemma measure_frequency_zero (t : PluginTester) (f : R) (w : World) :
  f = 0 \/ duration t = 0 ->
  measure_frequency t f w = (Raise ZeroDivisionError, w).
Proof.
  intros H. unfold measure_frequency, bind at 1, lift at 1.
  destruct (Req_EM_T f 0) as [Hf | Hf].
  - unfold window, adaptive_duration. rewrite Hf, py_div_zero. reflexivity.
  - destruct H as [H | H]; [contradiction |].
    rewrite (window_no_duration t f Hf H). reflexivity.
Qed.

End MeasurementExits.

(** X6.  A measurement at frequency 0, or with a base duration of 0, ends
    with [ZeroDivisionError] before anything is done: no temporary file
    is made and no tool is run.  So a sweep that starts at 0 Hz, or has a
    base duration of 0, ends with that error at its first step, with no
    record. *)
Theorem zero_division_before_effects {E : Externals} (t : PluginTester)
        (w : World) :
  (forall f, f = 0 \/ duration t = 0 ->
             measure_frequency t f w = (Raise ZeroDivisionError, w))
  /\ (f_min t = 0 \/ duration t = 0 -> f_min t <= f_max t ->
      forall fuel,
        run_sweep t (S fuel) w = Some (Raise ZeroDivisionError, w)).
Proof.
  split.
  - intros f H. apply measure_frequency_zero; exact H.
  - intros H Hle fuel. unfold run_sweep.
    apply sweep_loop_measure_raises; [exact Hle |].
    apply measure_frequency_zero; exact H.
Qed.

Lemma zero_division_before_effects_witness :
  let E := Bench.externals 0 Bench.stat_report in
  @measure_frequency E (Bench.tester 5 50000 12) 0 Bench.start
  = (Raise ZeroDivisionError, Bench.start)
  /\ @run_sweep E (Bench.tester 0 50000 12) 1 Bench.start
     = Some (Raise ZeroDivisionError, Bench.start).
Proof.
  intros E. split.
  - apply (proj1 (@zero_division_before_effects E (Bench.tester 5 50000 12)
                    Bench.start)).
    left; reflexivity.
  - apply (proj2 (@zero_division_before_effects E (Bench.tester 0 50000 12)
                    Bench.start)); simpl; [left; reflexivity | lra].
Defined.



(** X8.  When the tone generator ends with a non-zero status the
    measurement returns [None] at once: the plugin is not run and no
    channel is analysed.  When the generator succeeds, a plugin labelled
    [riaa] is run as [./riaa_process <in> <out> <parameters>], any other
    one through [sox <in> <out> ladspa <path> <label> <parameters>]; a
    non-zero status of that command also ends the measurement with
    [None], with no channel analysed. *)
Theorem failed_tool_ends_measurement {E : Externals} (t : PluginTester)
        (f : R) (w wa wb : World) (tmp_input tmp_output : string) :
  f <> 0 -> duration t <> 0 ->
  NamedTemporaryFile ".wav" w = (tmp_input, wa) ->
  NamedTemporaryFile ".wav" wa = (tmp_output, wb) ->
  let ad := Rmin (Rmax (100 * (1 / f)) 1) 10 in
  let sox_cmd :=
    ["sox"; "-n"; tmp_input; "synth"; str_float ad; "sine"; str_float f;
     "channels"; str_nat (num_inputs t); "trim";
     str_float (2 / 10 * ad / duration t);
     str_float (6 / 10 * ad / duration t)]%string in
  forall res w1,
    subprocess_run sox_cmd wb = (res, w1) ->
    (returncode res <> 0%Z ->
     measure_frequency t f w
     = (Ok None, unlink tmp_output (unlink tmp_input w1)))
    /\ (returncode res = 0%Z ->
        forall path label res2 w2,
          plugin_path t = Some path -> plugin_label t = Some label ->
          subprocess_run
            (if String.eqb label "riaa"
             then (["./riaa_process"; tmp_input; tmp_output]%string
                   ++ parameters t)%list
             else (["sox"; tmp_input; tmp_output; "ladspa"; path; label]%string
                   ++ parameters t)%list) w1
          = (res2, w2) ->
          returncode res2 <> 0%Z ->
          measure_frequency t f w
          = (Ok None, unlink tmp_output (unlink tmp_input w2))).
Proof.
  intros Hf Hd Hin Hout ad sox_cmd res w1 Hsynth.
  assert (Hstart :
            measure_frequency t f w
            = let (r, w2) :=
                try_except
                  (measure_body t f ad (2 / 10 * ad / duration t)
                                (6 / 10 * ad / duration t)
                                tmp_input tmp_output)
                  caught (fun _ => ret None) wb in
              (r, unlink tmp_output (unlink tmp_input w2)))
    by exact (measure_frequency_unfold t f w wa wb _ _ Hf Hd Hin Hout).
  split.
  - intros Hcode. rewrite Hstart.
    unfold try_except, measure_body, bind at 1, process_signal.
    fold sox_cmd. unfold bind at 1, call at 1. rewrite Hsynth.
    apply Z.eqb_neq in Hcode. rewrite Hcode. reflexivity.
  - intros Hcode path label res2 w2 Hp Hl Hrun Hcode2. rewrite Hstart.
    unfold try_except, measure_body, bind at 1, process_signal.
    fold sox_cmd. unfold bind at 1, call at 1. rewrite Hsynth.
    rewrite Hcode. cbn [Z.eqb negb]. rewrite Hl, Hp.
    apply Z.eqb_neq in Hcode2.
    destruct (String.eqb label "riaa").
    + unfold bind at 1, call at 1. rewrite Hrun, Hcode2. reflexivity.
    + unfold argv_word. cbv [bind ret call]. rewrite Hrun, Hcode2.
      reflexivity.
Qed.

Lemma failed_tool_ends_measurement_witness :
  let E := Bench.externals 1 Bench.stat_report in
  exists w1,
    @measure_frequency E (Bench.tester 5 50000 12) 1000 Bench.start
    = (Ok None, w1)
    /\ List.length (Bench.commands w1) = 1%nat.
Proof.
  intros E.
  assert (Hf : 1000 <> 0) by lra.
  assert (Hd : duration (Bench.tester 5 50000 12) <> 0) by (simpl; lra).
  edestruct (@failed_tool_ends_measurement E (Bench.tester 5 50000 12) 1000
               Bench.start _ _ _ _ Hf Hd eq_refl eq_refl _ _ eq_refl)
    as [Hfail _].
  eexists. split.
  - apply Hfail. simpl. lia.
  - reflexivity.
Defined.

(* ================================================================= *)
(** * More on the conversion to dB *)

Lemma log10_mult (x y : R) :
  0 < x -> 0 < y -> log10 (x * y) = log10 x + log10 y.
Proof.
  intros Hx Hy. unfold log10. rewrite ln_mult by assumption.
  field. pose proof ln_10_pos; lra.
Qed.

Lemma log10_10 : log10 10 = 1.
Proof. unfold log10. field. pose proof ln_10_pos; lra. Qed.



(* ================================================================= *)
(** * Octaves and the number of records *)

(** Whatever a sweep returns is a ladder, for any behaviour of the
    measurements. *)
Lemma sweep_loop_ladder {E : Externals} (t : PluginTester) (ratio : R)
      (fuel : nat) :
  step_ratio t = Ok ratio ->
  forall (f : R) (acc rs : list record) (w w' : World),
    sweep_loop t fuel f acc w = Some (Ok rs, w') ->
    exists new, rs = (acc ++ new)%list
                /\ ladder (f_max t) ratio f (map fst new).
Proof.
  intros Hratio.
  induction fuel as [| fuel IH]; intros f acc rs w w' H; simpl in H.
  - unfold Rleb in H. destruct (Rle_dec f (f_max t)); [discriminate |].
    injection H as <- <-. exists []. rewrite app_nil_r.
    split; [reflexivity | constructor; lra].
  - unfold Rleb in H. destruct (Rle_dec f (f_max t)) as [Hle | Hgt].
    2: { injection H as <- <-. exists []. rewrite app_nil_r.
         split; [reflexivity | constructor; lra]. }
    destruct (measure_frequency t f w) as [[rms | e] w1]; [| discriminate].
    rewrite Hratio in H.
    apply IH in H. destruct H as (new & -> & Hl).
    eexists (_ :: new). rewrite <- app_assoc.
    split; [reflexivity |]. simpl. constructor; assumption.
Qed.

Lemma run_sweep_ladder {E : Externals} (t : PluginTester) (fuel : nat)
      (w w' : World) (rs : list record) :
  steps_per_oct t <> 0%Z ->
  run_sweep t fuel w = Some (Ok rs, w') ->
  ladder (f_max t) (Rpower 2 (1 / IZR (steps_per_oct t))) (f_min t)
         (map fst rs).
Proof.
  intros Hs H. unfold run_sweep in H.
  destruct (sweep_loop_ladder t _ fuel (step_ratio_eq t Hs) _ _ _ _ _ H)
    as (new & -> & Hl).
  exact Hl.
Qed.

(** [steps] steps make an octave. *)
Lemma octave (steps : Z) :
  (1 <= steps)%Z -> Rpower 2 (1 / IZR steps) ^ Z.to_nat steps = 2.
Proof.
  intros Hs.
  assert (Hpos : 0 < IZR steps) by (apply IZR_lt; lia).
  rewrite <- Rpower_pow by apply exp_pos.
  rewrite Rpower_mult, INR_IZR_INZ, Z2Nat.id by lia.
  replace (1 / IZR steps * IZR steps) with 1 by (field; lra).
  apply Rpower_1; lra.
Qed.


Lemma ln_pow_ratio (steps : Z) (n : nat) :
  (1 <= steps)%Z ->
  ln (Rpower 2 (1 / IZR steps) ^ n) = INR n * ln 2 / IZR steps.
Proof.
  intros Hs.
  assert (Hpos : 0 < IZR steps) by (apply IZR_lt; lia).
  rewrite ln_pow by apply exp_pos. rewrite ln_Rpower. field. lra.
Qed.

Lemma ln_2_pos : 0 < ln 2.
Proof. rewrite <- ln_1. apply ln_increasing; lra. Qed.

Lemma ln_le (x y : R) : 0 < x -> x <= y -> ln x <= ln y.
Proof.
  intros Hx [Hlt | ->]; [left; apply ln_increasing; assumption | right; reflexivity].
Qed.




(* ================================================================= *)
(** * The table of a sweep *)

Lemma table_lines (t : PluginTester) (results : list record) :
  lines_of (table_text t results) = header_line t :: map data_line results.
Proof.
  unfold lines_of. rewrite table_text_eq.
  rewrite (split_on_app newline _ _ (header_line_one_line t)).
  rewrite split_rows.
  - change (header_line t :: map data_line results ++ [""%string])%list
      with ((header_line t :: map data_line results) ++ [""%string])%list.
    apply removelast_last.
  - apply Forall_forall. intros row Hrow.
    apply in_map_iff in Hrow. destruct Hrow as (r & <- & _).
    apply data_line_one_line.
Qed.

Lemma header_fields (t : PluginTester) :
  split_on tab (header_line t)
  = "Frequency"%string
    :: map (fun ch => ("Channel_" ++ str_nat ch)%string)
           (seq 0 (num_outputs t)).
Proof.
  rewrite header_line_eq. apply split_fields; [reflexivity |].
  apply Forall_forall. intros field Hfield.
  apply in_map_iff in Hfield. destruct Hfield as (ch & <- & _).
  rewrite lacks_app, str_nat_lacks by reflexivity. reflexivity.
Qed.

Lemma data_fields (freq : R) (db_values : list R) :
  split_on tab (data_line (freq, db_values))
  = format_fixed 3 freq :: map (format_fixed 2) db_values.
Proof.
  rewrite data_line_eq.
  apply split_fields; [apply format_fixed_lacks; reflexivity |].
  apply Forall_forall. intros field Hfield.
  apply in_map_iff in Hfield. destruct Hfield as (db & <- & _).
  apply format_fixed_lacks; reflexivity.
Qed.

(** X12.  The table written for the records of a sweep is rectangular:
    it has one line more than there are records, and every line, the
    header included, has [num_outputs + 1] tab-separated fields. *)
Theorem table_rectangular {E : Externals} (t : PluginTester) (fuel : nat)
        (w w' : World) (rs : list record) :
  run_sweep t fuel w = Some (Ok rs, w') ->
  List.length (lines_of (table_text t rs)) = S (List.length rs)
  /\ Forall (fun row => List.length (split_on tab row) = S (num_outputs t))
            (lines_of (table_text t rs)).
Proof.
  intros Hrun. rewrite table_lines. split.
  - simpl. rewrite length_map. reflexivity.
  - constructor.
    + rewrite header_fields. simpl. rewrite length_map, length_seq.
      reflexivity.
    + apply Forall_forall. intros row Hrow.
      apply in_map_iff in Hrow. destruct Hrow as ([freq dbs] & <- & Hin).
      rewrite data_fields. simpl. rewrite length_map. f_equal.
      pose proof (sweep_loop_shape t fuel _ [] rs w w' (Forall_nil _) Hrun)
        as Hshape.
      rewrite Forall_forall in Hshape. exact (Hshape _ Hin).
Qed.

Lemma table_rectangular_witness :
  let E := Bench.externals 0 Bench.stat_report in
  let t := Bench.tester 100 400 1 in
  exists fuel rs w',
    @run_sweep E t fuel Bench.start = Some (Ok rs, w')
    /\ List.length (lines_of (table_text t rs)) = S (List.length rs)
    /\ Forall (fun row => List.length (split_on tab row) = 3%nat)
              (lines_of (table_text t rs)).
Proof.
  intros E t.
  destruct (@run_sweep_returns E t) as [N HN];
    [simpl; lra | simpl; lia | apply bench_measures |].
  destruct (HN N Bench.start (le_n N)) as (rs & w' & Hrun & _).
  exists N, rs, w'. split; [exact Hrun |].
  exact (@table_rectangular E t N Bench.start w' rs Hrun).
Defined.

(* ================================================================= *)
(** * The plot of a sweep *)

Lemma column_ok (n ch : nat) (results : list record) :
  Forall (fun r => List.length (snd r) = n) results ->
  (ch < n)%nat ->
  exists dbs, column ch results = Ok dbs
              /\ List.length dbs = List.length results.
Proof.
  intros Hshape Hch.
  induction Hshape as [| r results Hr Hrest IH]; simpl.
  - exists []. split; reflexivity.
  - destruct (nth_error (snd r) ch) as [db |] eqn:Hnth.
    + destruct IH as (dbs & -> & Hlen). simpl.
      exists (db :: dbs). split; [reflexivity |]. simpl. rewrite Hlen.
      reflexivity.
    + apply nth_error_None in Hnth. lia.
Qed.

Lemma column_short (ch : nat) (results : list record) :
  Exists (fun r => (List.length (snd r) <= ch)%nat) results ->
  column ch results = Raise IndexError.
Proof.
  induction 1 as [r results Hr | r results Hrest IH]; simpl.
  - apply nth_error_None in Hr. rewrite Hr. reflexivity.
  - destruct (nth_error (snd r) ch); [| reflexivity].
    rewrite IH. reflexivity.
Qed.

Lemma plot_curves_ok (n : nat) (results : list record) (channels : list nat) :
  Forall (fun r => List.length (snd r) = n) results ->
  Forall (fun ch => (ch < n)%nat) channels ->
  exists drawn, plot_curves channels results = Ok drawn.
Proof.
  intros Hshape Hch.
  induction Hch as [| ch channels Hlt Hrest IH]; simpl.
  - exists []. reflexivity.
  - destruct (column_ok n ch results Hshape Hlt) as (dbs & -> & _).
    destruct IH as (more & ->). simpl. eexists. reflexivity.
Qed.

Lemma plot_curves_length (channels : list nat) (results : list record) :
  forall drawn,
    plot_curves channels results = Ok drawn ->
    List.length drawn = List.length channels.
Proof.
  induction channels as [| ch channels IH]; intros drawn H; simpl in H.
  - injection H as <-. reflexivity.
  - destruct (column ch results); [| discriminate]. simpl in H.
    destruct (plot_curves channels results) as [more |]; [| discriminate].
    simpl in H. injection H as <-. simpl. f_equal. apply IH. reflexivity.
Qed.

Lemma all_db_values_ok (n : nat) (results : list record)
      (channels : list nat) :
  Forall (fun r => List.length (snd r) = n) results ->
  Forall (fun ch => (ch < n)%nat) channels ->
  exists values,
    all_db_values channels results = Ok values
    /\ Forall (fun v => db_floor < v) values.
Proof.
  intros Hshape Hch.
  induction Hch as [| ch channels Hlt Hrest IH]; simpl.
  - exists []. split; [reflexivity | constructor].
  - unfold measured_column.
    destruct (column_ok n ch results Hshape Hlt) as (dbs & -> & _).
    destruct IH as (more & -> & Hmore). simpl.
    eexists. split; [reflexivity |].
    apply Forall_app. split; [| exact Hmore].
    apply Forall_forall. intros v Hv. apply filter_In in Hv.
    destruct Hv as [_ Hv]. unfold Rltb in Hv.
    destruct (Rlt_dec db_floor v); [assumption | discriminate].
Qed.

Lemma seq_below (n : nat) : Forall (fun ch => (ch < n)%nat) (seq 0 n).
Proof. apply Forall_forall. intros ch Hin. apply in_seq in Hin. lia. Qed.

Lemma y_limits_ok (t : PluginTester) (results : list record) :
  Forall (fun r => List.length (snd r) = num_outputs t) results ->
  exists limits, y_limits t results = Ok limits.
Proof.
  intros Hshape. unfold y_limits.
  destruct (all_db_values_ok _ results _ Hshape (seq_below (num_outputs t)))
    as (values & Hv & _).
  destruct (y_min t) as [lo |], (y_max t) as [hi |];
    try (eexists; reflexivity);
    rewrite Hv; simpl; destruct values; eexists; reflexivity.
Qed.



(* ================================================================= *)
(** * The limits of the dB axis *)

Lemma list_min_le (l : list R) :
  forall x, list_min x l <= x /\ Forall (fun v => list_min x l <= v) l.
Proof.
  unfold list_min.
  induction l as [| a l IH]; intros x; simpl.
  - split; [lra | constructor].
  - destruct (IH (py_min x a)) as [H1 H2].
    rewrite py_min_Rmin in *.
    pose proof (Rmin_l x a). pose proof (Rmin_r x a).
    split; [lra |]. constructor; [lra | exact H2].
Qed.

Lemma list_max_ge (l : list R) :
  forall x, x <= list_max x l /\ Forall (fun v => v <= list_max x l) l.
Proof.
  unfold list_max.
  induction l as [| a l IH]; intros x; simpl.
  - split; [lra | constructor].
  - destruct (IH (py_max x a)) as [H1 H2].
    rewrite py_max_Rmax in *.
    pose proof (Rmax_l x a). pose proof (Rmax_r x a).
    split; [lra |]. constructor; [lra | exact H2].
Qed.

Lemma all_db_values_above (channels : list nat) (results : list record) :
  forall values,
    all_db_values channels results = Ok values ->
    Forall (fun v => db_floor < v) values.
Proof.
  induction channels as [| ch channels IH]; intros values H; simpl in H.
  - injection H as <-. constructor.
  - unfold measured_column in H.
    destruct (column ch results) as [dbs |]; [| discriminate]. simpl in H.
    destruct (all_db_values channels results) as [more |]; [| discriminate].
    simpl in H. injection H as <-.
    apply Forall_app. split; [| apply IH; reflexivity].
    apply Forall_forall. intros v Hv. apply filter_In in Hv.
    destruct Hv as [_ Hv]. unfold Rltb in Hv.
    destruct (Rlt_dec db_floor v); [assumption | discriminate].
Qed.



(* ================================================================= *)
(** * The flag that is not read *)

Section NoPlot.
Context {E : Externals}.

Lemma measure_frequency_no_plot (b : bool) (t : PluginTester) (f : R)
      (w : World) :
  measure_frequency (set_no_plot b t) f w = measure_frequency t f w.
Proof. reflexivity. Qed.

Lemma sweep_loop_no_plot (b : bool) (t : PluginTester) (fuel : nat) :
  forall (f : R) (acc : list record) (w : World),
    sweep_loop (set_no_plot b t) fuel f acc w = sweep_loop t fuel f acc w.
Proof.
  induction fuel as [| fuel IH]; intros f acc w; [reflexivity |].
  cbn [sweep_loop]. rewrite measure_frequency_no_plot.
  change (f_max (set_no_plot b t)) with (f_max t).
  change (num_outputs (set_no_plot b t)) with (num_outputs t).
  change (step_ratio (set_no_plot b t)) with (step_ratio t).
  destruct (Rleb f (f_max t)); [| reflexivity].
  destruct (measure_frequency t f w) as [[rms | e] w1]; [| reflexivity].
  destruct (step_ratio t) as [ratio | e]; [| reflexivity].
  apply IH.
Qed.

Lemma analyze_plugin_no_plot (b : bool) (t : PluginTester) (w : World) :
  analyze_plugin (set_no_plot b t) w
  = match analyze_plugin t w with
    | (Ok t', w1) => (Ok (set_no_plot b t'), w1)
    | (Raise e, w1) => (Raise e, w1)
    end.
Proof.
  unfold analyze_plugin, argv_word.
  change (plugin_path (set_no_plot b t)) with (plugin_path t).
  destruct (plugin_path t) as [path |]; [| reflexivity].
  cbv [bind ret call raise].
  destruct (subprocess_run _ w) as [res w1].
  destruct (negb (returncode res =? 0)%Z); reflexivity.
Qed.

Lemma parse_args_no_plot (b : bool) (t0 : PluginTester) (args : Namespace)
      (w : World) :
  parse_args t0 (with_no_plot b args) w
  = match parse_args t0 args w with
    | (Ok t, w1) => (Ok (set_no_plot b t), w1)
    | (Raise e, w1) => (Raise e, w1)
    end.
Proof.
  unfold parse_args, bind.
  change (arg_plugin (with_no_plot b args)) with (arg_plugin args).
  destruct (negb (path_exists _ w)); reflexivity.
Qed.

End NoPlot.

(** X15.  The [--no-plot] flag changes nothing: with it or without it a
    run ends the same way, in the same world and with the same files, the
    plot included when matplotlib is available. *)
Theorem no_plot_ignored {E : Externals} (b : bool) (args : Namespace)
        (fuel : nat) (w : World) (fs : FileStore) :
  run (with_no_plot b args) fuel w fs = run args fuel w fs.
Proof.
  unfold run, bind. rewrite parse_args_no_plot.
  destruct (parse_args init args w) as [[t | e] w1]; [| reflexivity].
  rewrite analyze_plugin_no_plot.
  destruct (analyze_plugin t w1) as [[t' | e] w2]; [| reflexivity].
  unfold run_sweep. rewrite sweep_loop_no_plot. reflexivity.
Qed.

(* ================================================================= *)
(** * A whole run *)



(* ================================================================= *)
(** * The listing of the parameters *)

Lemma listing_zip (names : list string) :
  forall (values : list string) (start : nat) (all : list string),
    (forall i, nth (start + i) all ""%string = nth i names ""%string) ->
    List.length all = (start + List.length names)%nat ->
    flat_map
      (fun iv : nat * string =>
         let (i, v) := iv in
         if (i <? List.length all)%nat
         then [("  " ++ nth i all "" ++ " = " ++ v)%string]
         else [])
      (combine (seq start (List.length values)) values)
    = map (fun nv : string * string =>
             ("  " ++ fst nv ++ " = " ++ snd nv)%string)
          (combine names values).
Proof.
  induction names as [| n names IH]; intros values start all Hnth Hlen.
  - simpl in Hlen. rewrite Nat.add_0_r in Hlen.
    assert (Hnone : forall k vs,
               (List.length all <= k)%nat ->
               flat_map
                 (fun iv : nat * string =>
                    let (i, v) := iv in
                    if (i <? List.length all)%nat
                    then [("  " ++ nth i all "" ++ " = " ++ v)%string]
                    else [])
                 (combine (seq k (List.length vs)) vs) = []).
    { intros k vs. revert k. induction vs as [| v vs IHv]; intros k Hk;
        [reflexivity |].
      cbn [List.length seq combine flat_map].
      destruct (Nat.ltb_spec k (List.length all)); [lia |].
      rewrite IHv by lia. reflexivity. }
    rewrite Hnone by lia. reflexivity.
  - destruct values as [| v values]; [reflexivity |].
    cbn [List.length seq combine flat_map map fst snd].
    destruct (Nat.ltb_spec start (List.length all)) as [_ | Hge];
      [| simpl in Hlen; lia].
    pose proof (Hnth 0%nat) as H0. rewrite Nat.add_0_r in H0. simpl in H0.
    rewrite H0. cbn [app]. f_equal.
    apply IH.
    + intros i. specialize (Hnth (S i)).
      rewrite Nat.add_succ_r in Hnth. exact Hnth.
    + simpl in Hlen. lia.
Qed.

(** X17.  [print_plugin_info] prints five lines about the plugin.  When
    there are parameter values it adds a heading, one line
    [  name = value] per value that has a control-port name, pairing
    names and values by position, and an empty line: values beyond the
    last name are not listed.  Without parameter values it adds
    nothing. *)
Theorem parameter_listing (t : PluginTester) :
  firstn 5 (print_plugin_info t)
  = ["=== Plugin Analysis ===";
     "Plugin Name: " ++ String quote (str_option (plugin_name t)
                                      ++ String quote "");
     "Plugin Label: " ++ String quote (str_option (plugin_label t)
                                       ++ String quote "");
     "Audio Channels: " ++ str_nat (num_inputs t) ++ " input(s), "
     ++ str_nat (num_outputs t) ++ " output(s)";
     ""]%string
  /\ skipn 5 (print_plugin_info t)
     = match parameters t with
       | [] => []
       | _ =>
           ("=== Testing Parameters ==="%string
            :: map (fun nv : string * string =>
                      ("  " ++ fst nv ++ " = " ++ snd nv)%string)
                   (combine (param_names t) (parameters t))
            ++ [""%string])%list
       end
  /\ List.length (print_plugin_info t)
     = match parameters t with
       | [] => 5%nat
       | _ => (7 + Nat.min (List.length (param_names t))
                           (List.length (parameters t)))%nat
       end.
Proof.
  assert (Hskip : skipn 5 (print_plugin_info t)
                  = match parameters t with
                    | [] => []
                    | _ =>
                        ("=== Testing Parameters ==="%string
                         :: map (fun nv : string * string =>
                                   ("  " ++ fst nv ++ " = " ++ snd nv)%string)
                                (combine (param_names t) (parameters t))
                         ++ [""%string])%list
                    end).
  { unfold print_plugin_info. cbn [skipn app].
    destruct (parameters t) as [| v vs] eqn:Hp; [reflexivity |].
    rewrite <- Hp.
    rewrite (listing_zip (param_names t) (parameters t) 0 (param_names t));
      [rewrite Hp; reflexivity | reflexivity | reflexivity]. }
  split; [reflexivity |]. split; [exact Hskip |].
  rewrite <- (firstn_skipn 5 (print_plugin_info t)), length_app, Hskip.
  change (List.length (firstn 5 (print_plugin_info t))) with 5%nat.
  destruct (parameters t) as [| v vs]; [reflexivity |].
  cbn [List.length]. rewrite length_app, length_map, length_combine.
  cbn [List.length]. lia.
Qed.

Example parameter_listing_bench :
  skipn 5 (print_plugin_info
             {| f_min := 5; f_max := 50000; steps_per_oct := 12;
                duration := 1; trim_start := 2 / 10; trim_len := 6 / 10;
                plugin_path := None; plugin_label := Some "riaa"%string;
                plugin_name := None; num_inputs := 2; num_outputs := 2;
                parameters := ["1"; "0"; "7"]%string;
                param_names := ["Gain"; "Subsonic"]%string;
                no_plot := false; y_min := None; y_max := None;
                output_file := None |})
  = ["=== Testing Parameters ==="; "  Gain = 1"; "  Subsonic = 0"; ""]%string.
Proof. reflexivity. Qed.

(* ================================================================= *)
(** * The word behind [amplitude:] *)

Lemma skip_spaces_split (s : string) :
  exists blanks,
    s = (blanks ++ skip_spaces s)%string
    /\ all_chars is_space blanks = true.
Proof.
  induction s as [| c s IH]; [exists ""%string; split; reflexivity |].
  cbn [skip_spaces]. destruct (is_space c) eqn:Hc.
  - destruct IH as (blanks & Hs & Hb).
    exists (String c blanks). cbn [append all_chars].
    rewrite <- Hs, Hc, Hb. split; reflexivity.
  - exists ""%string. split; reflexivity.
Qed.

Lemma take_token_split (s : string) :
  exists after,
    s = (take_token s ++ after)%string
    /\ blank_free (take_token s) = true
    /\ ends_word after.
Proof.
  unfold blank_free.
  induction s as [| c s IH]; [exists ""%string; repeat split |].
  cbn [take_token]. destruct (is_space c) eqn:Hc.
  - exists (String c s). repeat split. exact Hc.
  - destruct IH as (after & Hs & Hb & Ha).
    exists after. cbn [append all_chars]. rewrite <- Hs, Hc, Hb.
    repeat split. exact Ha.
Qed.

Lemma skip_spaces_head (s : string) :
  match skip_spaces s with
  | EmptyString => True
  | String c _ => is_space c = false
  end.
Proof.
  induction s as [| c s IH]; [exact I |].
  cbn [skip_spaces]. destruct (is_space c) eqn:Hc; [exact IH | exact Hc].
Qed.

Lemma amplitude_here_sound (s word : string) :
  amplitude_here s = Some word ->
  exists blanks after,
    s = ("amplitude:" ++ blanks ++ word ++ after)%string
    /\ blanks <> ""%string /\ all_chars is_space blanks = true
    /\ word <> ""%string /\ blank_free word = true
    /\ ends_word after.
Proof.
  unfold amplitude_here.
  destruct (prefix "amplitude:" s) eqn:Hp; [| discriminate].
  destruct (prefix_split _ _ Hp) as [rest ->].
  change (drop 10 ("amplitude:" ++ rest)) with rest.
  destruct rest as [| c rest]; [discriminate |].
  destruct (is_space c) eqn:Hc; [| discriminate].
  destruct (skip_spaces_split (String c rest)) as (blanks & Hs & Hb).
  destruct (take_token_split (skip_spaces (String c rest)))
    as (after & Ht & Hfree & Hafter).
  destruct (take_token (skip_spaces (String c rest))) as [| d tok] eqn:Htok;
    [discriminate |].
  intros H. injection H as <-.
  exists blanks, after. rewrite Hs at 1. rewrite Ht at 1.
  split; [reflexivity |].
  split.
  - intros ->. cbn [append] in Hs.
    pose proof (skip_spaces_head (String c rest)) as Hh.
    rewrite <- Hs in Hh. congruence.
  - repeat split; try assumption. discriminate.
Qed.

(** X18.  The word that the pattern [amplitude:\s+(\S+)] hands to
    [float] is never empty and has no blank in it; in the line it comes
    after [amplitude:] and at least one blank, and it ends at a blank or
    at the end of the line. *)
Theorem amplitude_word (line word : string) :
  amplitude_search line = Some word ->
  exists before blanks after,
    line = (before ++ "amplitude:" ++ blanks ++ word ++ after)%string
    /\ blanks <> ""%string /\ all_chars is_space blanks = true
    /\ word <> ""%string /\ blank_free word = true
    /\ ends_word after.
Proof.
  induction line as [| c line IH]; cbn [amplitude_search].
  - destruct (amplitude_here "") eqn:Hh; [| discriminate].
    intros H. injection H as ->.
    destruct (amplitude_here_sound _ _ Hh) as (blanks & after & Hd).
    exists ""%string, blanks, after. exact Hd.
  - destruct (amplitude_here (String c line)) eqn:Hh.
    + intros H. injection H as ->.
      destruct (amplitude_here_sound _ _ Hh) as (blanks & after & Hd).
      exists ""%string, blanks, after. exact Hd.
    + intros H. destruct (IH H) as (before & blanks & after & -> & Hd).
      exists (String c before), blanks, after.
      split; [reflexivity | exact Hd].
Qed.

Lemma amplitude_word_witness :
  exists before blanks after,
    "RMS     amplitude:     0.707107 V"%string
    = (before ++ "amplitude:" ++ blanks ++ "0.707107" ++ after)%string
    /\ blanks <> ""%string /\ all_chars is_space blanks = true
    /\ "0.707107"%string <> ""%string /\ blank_free "0.707107" = true
    /\ ends_word after.
Proof. apply amplitude_word. reflexivity. Defined.

(* ================================================================= *)
(** * A plugin without a label *)

(** X19.  When the report of [analyseplugin] gave no label, the command
    for the plugin cannot be built: after the tone has been generated the
    measurement ends with [TypeError], with both temporary files removed,
    and a sweep that enters its loop ends with that error at its first
    frequency, with no record. *)
Theorem missing_label_aborts {E : Externals} (t : PluginTester)
        (w wa wb : World) (tmp_input tmp_output : string) :
  plugin_label t = None ->
  f_min t <> 0 -> duration t <> 0 -> f_min t <= f_max t ->
  NamedTemporaryFile ".wav" w = (tmp_input, wa) ->
  NamedTemporaryFile ".wav" wa = (tmp_output, wb) ->
  let f := f_min t in
  let ad := Rmin (Rmax (100 * (1 / f)) 1) 10 in
  let sox_cmd :=
    ["sox"; "-n"; tmp_input; "synth"; str_float ad; "sine"; str_float f;
     "channels"; str_nat (num_inputs t); "trim";
     str_float (2 / 10 * ad / duration t);
     str_float (6 / 10 * ad / duration t)]%string in
  forall res w1,
    subprocess_run sox_cmd wb = (res, w1) ->
    returncode res = 0%Z ->
    measure_frequency t f w
    = (Raise TypeError, unlink tmp_output (unlink tmp_input w1))
    /\ forall fuel,
        run_sweep t (S fuel) w
        = Some (Raise TypeError, unlink tmp_output (unlink tmp_input w1)).
Proof.
  intros Hl Hf Hd Hle Hin Hout f ad sox_cmd res w1 Hsynth Hcode.
  assert (Hm : measure_frequency t f w
               = (Raise TypeError, unlink tmp_output (unlink tmp_input w1))).
  { rewrite (measure_frequency_unfold t f w wa wb _ _ Hf Hd Hin Hout).
    fold ad. unfold try_except, measure_body, bind at 1, process_signal.
    fold sox_cmd. unfold bind at 1, call at 1. rewrite Hsynth, Hcode, Hl.
    cbn [Z.eqb negb]. unfold argv_word.
    destruct (plugin_path t); reflexivity. }
  split; [exact Hm |].
  intros fuel. unfold run_sweep.
  apply sweep_loop_measure_raises; [exact Hle | exact Hm].
Qed.

Lemma missing_label_aborts_witness :
  let E := Bench.externals 0 Bench.stat_report in
  let t := {| f_min := 5; f_max := 50000; steps_per_oct := 12;
              duration := 1; trim_start := 2 / 10; trim_len := 6 / 10;
              plugin_path := Some "/usr/local/lib/ladspa/amp.so"%string;
              plugin_label := None; plugin_name := None;
              num_inputs := 1; num_outputs := 1; parameters := [];
              param_names := []; no_plot := false; y_min := None;
              y_max := None; output_file := Some "amp_response.txt"%string |} in
  exists w1,
    @run_sweep E t 1 Bench.start = Some (Raise TypeError, w1)
    /\ List.length (Bench.commands w1) = 1%nat.
Proof.
  intros E t.
  assert (Hf : f_min t <> 0) by (simpl; lra).
  assert (Hd : duration t <> 0) by (simpl; lra).
  assert (Hle : f_min t <= f_max t) by (simpl; lra).
  epose proof (@missing_label_aborts E t Bench.start _ _ _ _ eq_refl
                 Hf Hd Hle eq_refl eq_refl _ _ eq_refl eq_refl)
    as [_ Hrun].
  eexists. split; [apply Hrun | reflexivity].
Defined.

(* ================================================================= *)
(** * The name and the label of the plugin *)

Lemma lacks_contains (c : ascii) (s : string) :
  lacks c s = true -> contains (String c "") s = false.
Proof. intros H. rewrite contains_char, H. reflexivity. Qed.

(** X20.  The value that [analyze_plugin] takes from a [Plugin Name:] or
    [Plugin Label:] line is the text between the first two double quotes
    of the line; on a line without double quotes it is the text between
    the first colon and the next one (or the end), without the blanks
    around it. *)
Theorem field_value_read (head value rest : string) :
  (lacks quote head = true -> lacks quote value = true ->
   field_value (head ++ String quote (value ++ String quote rest)) = value)
  /\ (lacks quote head = true -> lacks quote value = true ->
      lacks ":" head = true -> lacks ":" value = true ->
      field_value (head ++ String ":" value) = strip value
      /\ (lacks quote rest = true ->
          field_value (head ++ String ":" (value ++ String ":" rest))
          = strip value)).
Proof.
  split.
  - intros Hh Hv. unfold field_value.
    assert (Hc : contains (String quote "")
                          (head ++ String quote (value ++ String quote rest))
                 = true).
    { rewrite contains_char. unfold lacks. rewrite all_chars_app.
      cbn [all_chars]. rewrite Ascii.eqb_refl. cbn [negb andb].
      rewrite andb_false_r. reflexivity. }
    rewrite Hc, (split_on_app quote head _ Hh), (split_on_app quote value _ Hv).
    reflexivity.
  - intros Hh Hv Hch Hcv. split.
    + unfold field_value.
      rewrite lacks_contains.
      * rewrite (split_on_app ":" head _ Hch), (split_on_lacks ":" value Hcv).
        reflexivity.
      * change (head ++ String ":" value)%string
          with (head ++ String ":" "" ++ value)%string.
        rewrite !lacks_app, Hh, Hv. reflexivity.
    + intros Hr. unfold field_value.
      rewrite lacks_contains.
      * rewrite (split_on_app ":" head _ Hch), (split_on_app ":" value _ Hcv).
        reflexivity.
      * change (head ++ String ":" (value ++ String ":" rest))%string
          with (head ++ String ":" "" ++ value ++ String ":" "" ++ rest)%string.
        rewrite !lacks_app, Hh, Hv, Hr. reflexivity.
Qed.

Lemma field_value_read_witness :
  field_value ("Plugin Name: " ++ String quote ("RIAA Filter"
                                                ++ String quote " (v2)"))
  = "RIAA Filter"%string
  /\ field_value ("Plugin Label" ++ String ":" "  riaa ") = "riaa"%string.
Proof.
  split.
  - apply (proj1 (field_value_read "Plugin Name: " "RIAA Filter" " (v2)"));
      reflexivity.
  - apply (proj1 (proj2 (field_value_read "Plugin Label" "  riaa " "")
                        eq_refl eq_refl eq_refl eq_refl)).
Defined.
